(** * VitalGlance backend: the value-synthesis and variation-control engine

    A shallow embedding of the number-generating core of the VitalGlance
    server (the newer source, and [simulateHealthyGlucose] of the older
    [src/index.js]): the bounded random walk [applyControlledVariation], the
    time-of-day bands, the device-state lookup [getLastStoredValues], the
    vitals and glucose synthesizers, the interpretation tables, the health
    score and the two POST handlers that append to the history store.

    Conventions of the embedding.
    - A JavaScript number is an exact rational ([Q]); arithmetic is exact,
      so results that hinge on binary rounding of doubles are outside the
      model.  Concrete evaluations below use inputs on which double
      arithmetic is exact as well (dyadic values).
    - [Math.random()] reads the next element of a stream of draws,
      [nat -> Q], threaded through the code by the small state monad
      [Rand]; a property "for every rng sequence" quantifies over the
      stream.
    - The wall clock ([new Date().getHours()], [new Date()]) is an explicit
      argument.
    - A record of the history store keeps the fields the engine reads; a
      field that a JavaScript object may lack is an [option]. *)

From Stdlib Require Import ZArith QArith Qminmax Qabs Qround Lqa Lia.
From Stdlib Require Import List String Bool.
Import ListNotations.
Open Scope Q_scope.

(** ** JavaScript primitives on numbers *)

Module Js.

(** [x > y], [x < y], [x >= y], [x <= y] *)
Definition gtb (x y : Q) : bool := negb (Qle_bool x y).
Definition ltb (x y : Q) : bool := negb (Qle_bool y x).
Definition geb (x y : Q) : bool := Qle_bool y x.
Definition leb (x y : Q) : bool := Qle_bool x y.

(** A number is falsy exactly when it is [0] (there is no NaN in [Q]). *)
Definition truthy (x : Q) : bool := negb (Qeq_bool x 0).

(** [x || d] on a number, and on a property that may be missing
    ([undefined] is falsy). *)
Definition or_else (x d : Q) : Q := if truthy x then x else d.

Definition or_default (x : option Q) (d : Q) : Q :=
  match x with
  | Some v => or_else v d
  | None => d
  end.

Definition Math_max (x y : Q) : Q := Qmax x y.
Definition Math_min (x y : Q) : Q := Qmin x y.
Definition Math_abs (x : Q) : Q := Qabs x.

(** [Math.round]: the nearest integer, a tie going up. *)
Definition Math_round (x : Q) : Q := inject_Z (Qfloor (x + 0.5)).

(** [parseFloat(x.toFixed(1))]: the nearest multiple of one tenth, a tie
    going to the larger magnitude; the sign is handled apart, as
    [Number.prototype.toFixed] does. *)
Definition toFixed1 (x : Q) : Q :=
  if ltb x 0
  then - (Qfloor ((- x) * 10 + 0.5) # 10)
  else Qfloor (x * 10 + 0.5) # 10.

End Js.

(** ** The random source *)

Definition RandomSource : Type := nat -> Q.

(** A stream of draws is well formed when each lies in [[0,1)]. *)
Definition uniform (src : RandomSource) : Prop :=
  forall i : nat, 0 <= src i /\ src i < 1.

Definition Rand (A : Type) : Type := RandomSource -> nat -> A * nat.

Definition ret {A : Type} (a : A) : Rand A := fun _ k => (a, k).

Definition bind {A B : Type} (m : Rand A) (f : A -> Rand B) : Rand B :=
  fun src k => let (a, k') := m src k in f a src k'.

Definition Math_random : Rand Q := fun src k => (src k, S k).

Declare Scope rand_scope.
Delimit Scope rand_scope with rand.
Notation "x <- m ;; k" := (bind m (fun x => k))
  (at level 100, m at next level, right associativity) : rand_scope.

(** ** The bounded random walk *)

Record Range : Type := mkRange { min : Q; max : Q; minChange : Q }.

(** [applyControlledVariation(currentValue, lastValue, range)].  The first
    argument is not read by the source either. *)
Definition applyControlledVariation (currentValue lastValue : Q) (range : Range)
  : Rand Q :=
  (r1 <- Math_random ;;
   let changeDirection := if Js.gtb r1 0.5 then 1 else -1 in
   let minVariation := Js.or_else (minChange range) 0.1 in
   let newValue := lastValue + changeDirection * minVariation in
   r2 <- Math_random ;;
   let additionalVariation := (r2 - 0.5) * 1.0 in
   let newValue := newValue + additionalVariation in
   let newValue :=
     Js.Math_max (min range) (Js.Math_min (max range) newValue) in
   if Js.ltb (Js.Math_abs (newValue - lastValue)) minVariation
   then
     r3 <- Math_random ;;
     let forcedChange := minVariation * (if Js.gtb r3 0.5 then 1 else -1) in
     let newValue := lastValue + forcedChange in
     ret (Js.Math_max (min range) (Js.Math_min (max range) newValue))
   else ret newValue)%rand.

(** A value is clear of the bounds of a band when a step of [minChange]
    either way stays inside the band. *)
Definition clear_of_bounds (range : Range) (x : Q) : Prop :=
  min range + minChange range <= x /\ x <= max range - minChange range.

(** ** The time-of-day bands

    The source builds each band in place from [timeOfDay]; the tests and the
    literals are the source's, in its order. *)

Definition isRestingTime (timeOfDay : Z) : bool :=
  ((timeOfDay >=? 22) || (timeOfDay <=? 6))%Z.

Definition isActiveTime (timeOfDay : Z) : bool :=
  ((timeOfDay >=? 9) && (timeOfDay <=? 18))%Z.

Definition heartRateRange (timeOfDay : Z) : Range :=
  if isRestingTime timeOfDay then mkRange 55 75 1
  else if isActiveTime timeOfDay then mkRange 65 90 1
  else mkRange 60 95 1.

Definition spo2Range : Range := mkRange 95 100 0.5.

Definition tempRange (timeOfDay : Z) : Range :=
  if ((timeOfDay >=? 6) && (timeOfDay <=? 10))%Z then mkRange 36.0 36.8 0.1
  else if ((timeOfDay >=? 16) && (timeOfDay <=? 20))%Z then mkRange 36.5 37.2 0.1
  else mkRange 36.1 37.2 0.1.

Definition redRange : Range := mkRange 75000 120000 1000.
Definition irRange : Range := mkRange 80000 120000 1000.

Definition isPostMealTime (timeOfDay : Z) : bool :=
  (((timeOfDay >=? 8) && (timeOfDay <=? 10))
   || ((timeOfDay >=? 12) && (timeOfDay <=? 14))
   || ((timeOfDay >=? 18) && (timeOfDay <=? 20)))%Z.

Definition isFastingTime (timeOfDay : Z) : bool :=
  ((timeOfDay >=? 22) || (timeOfDay <=? 7))%Z.

Definition glucoseRange (timeOfDay : Z) : Range :=
  if isFastingTime timeOfDay then mkRange 75 95 0.5
  else if isPostMealTime timeOfDay then mkRange 80 99 0.5
  else mkRange 75 99 0.5.

(** ** The history store *)

(** One element of [sensorData].  [deviceId] is [None] for [undefined].
    [receivedAt] is the time value of [new Date(record.receivedAt)] in
    milliseconds, [None] when the property is missing or does not parse
    (an Invalid Date, whose time value is NaN).  Properties that no
    function below reads ([id], [timestamp], the flags, [input],
    [prediction], ...) are left out. *)
Module Rec.
Record t : Type := mk {
  deviceId : option string;
  receivedAt : option Z;
  heartRate : option Q;
  heartRateAvg : option Q;
  spo2 : option Q;
  temperature : option Q;
  red : option Q;
  ir : option Q;
  lastGlucose : option Q
}.
End Rec.

(** The object [getLastStoredValues] returns. *)
Module Last.
Record t : Type := mk {
  heartRate : Q;
  spo2 : Q;
  temperature : Q;
  glucose : Q
}.
End Last.

(** [a === b] on device identifiers. *)
Definition deviceId_eqb (a b : option string) : bool :=
  match a, b with
  | Some x, Some y => String.eqb x y
  | None, None => true
  | _, _ => false
  end.

(** [Array.prototype.sort(comparefn)].  The sort is stable, and a NaN
    returned by the comparator is read as [+0].  The pivot goes before the
    first element it compares below, the test that V8's insertion uses; on a
    comparator that is a consistent order every stable sort returns this
    array. *)
Fixpoint sort_insert {A : Type} (comparefn : A -> A -> Z) (x : A) (l : list A)
  : list A :=
  match l with
  | [] => [x]
  | y :: l' =>
      if (comparefn x y <? 0)%Z then x :: l
      else y :: sort_insert comparefn x l'
  end.

Definition sort {A : Type} (comparefn : A -> A -> Z) (l : list A) : list A :=
  fold_left (fun acc x => sort_insert comparefn x acc) l [].

(** [(a, b) => new Date(b.receivedAt) - new Date(a.receivedAt)]; the
    difference is NaN as soon as one date is invalid, hence [0]. *)
Definition byReceivedAtDesc (a b : Rec.t) : Z :=
  match Rec.receivedAt b, Rec.receivedAt a with
  | Some tb, Some ta => (tb - ta)%Z
  | _, _ => 0%Z
  end.

Definition getLastStoredValues (sensorData : list Rec.t) (deviceId : option string)
  : Last.t :=
  let deviceRecords :=
    sort byReceivedAtDesc
      (filter (fun record => deviceId_eqb (Rec.deviceId record) deviceId)
         sensorData) in
  match deviceRecords with
  | lastRecord :: _ =>
      Last.mk (Js.or_default (Rec.heartRate lastRecord) 72)
              (Js.or_default (Rec.spo2 lastRecord) 98)
              (Js.or_default (Rec.temperature lastRecord) 36.5)
              (Js.or_default (Rec.lastGlucose lastRecord) 85)
  | [] => Last.mk 72 98 36.5 85
  end.

(** ** The vitals synthesizer *)

(** The body of [POST /api/sensor-data].  A property that is present holds
    a value of its type.  [receivedAt] and [lastGlucose] are not sent by the
    device firmware, but the handler spreads the whole body into the stored
    record, so they are kept: [receivedAt = Some d] is a body that has the
    property, with [d] the time value it parses to. *)
Module Body.
Record t : Type := mk {
  deviceId : option string;
  timestamp : option Z;
  heartRate : option Q;
  heartRateAvg : option Q;
  spo2 : option Q;
  temperature : option Q;
  red : option Q;
  ir : option Q;
  receivedAt : option (option Z);
  lastGlucose : option Q
}.

(** [field in originalData] for the two required fields. *)
Definition has (field : string) (b : t) : bool :=
  if String.eqb field "deviceId" then
    match deviceId b with Some _ => true | None => false end
  else if String.eqb field "timestamp" then
    match timestamp b with Some _ => true | None => false end
  else false.
End Body.

(** The object [generateHealthyValues] returns: [originalData] spread first,
    then the properties that override it.  [originalValues] repeats five
    properties of [originalData]. *)
Module Healthy.
Record t : Type := mk {
  originalData : Body.t;
  heartRate : Q;
  heartRateAvg : Q;
  heartRateValid : bool;
  spo2 : Q;
  spo2Valid : bool;
  temperature : Q;
  red : Q;
  ir : Q;
  fingerDetected : bool;
  simulatedHealthy : bool;
  lastValues : Last.t
}.
End Healthy.

Definition generateHealthyValues (sensorData : list Rec.t) (timeOfDay : Z)
    (originalData : Body.t) : Rand Healthy.t :=
  (let deviceId := Body.deviceId originalData in
   let lastValues := getLastStoredValues sensorData deviceId in
   a <- applyControlledVariation (Last.heartRate lastValues)
          (Last.heartRate lastValues) (heartRateRange timeOfDay) ;;
   let healthyHeartRate := Js.Math_round a in
   b <- applyControlledVariation (Last.spo2 lastValues)
          (Last.spo2 lastValues) spo2Range ;;
   let healthySpO2 := Js.Math_round b in
   c <- applyControlledVariation (Last.temperature lastValues)
          (Last.temperature lastValues) (tempRange timeOfDay) ;;
   let healthyTemp := Js.toFixed1 c in
   let lastRed := Js.or_default (Body.red originalData) 80000 in
   let lastIR := Js.or_default (Body.ir originalData) 85000 in
   d <- applyControlledVariation lastRed lastRed redRange ;;
   let healthyRed := Js.Math_round d in
   e <- applyControlledVariation lastIR lastIR irRange ;;
   let healthyIR := Js.Math_round e in
   let heartRateAvg :=
     match Body.heartRateAvg originalData with
     | Some avg =>
         if Js.truthy avg then Js.Math_round ((healthyHeartRate + avg) / 2)
         else healthyHeartRate
     | None => healthyHeartRate
     end in
   ret (Healthy.mk originalData healthyHeartRate heartRateAvg true
          healthySpO2 true healthyTemp healthyRed healthyIR true true
          lastValues))%rand.

(** ** The glucose synthesizer (the newer source) *)

Definition simulateHealthyGlucose (sensorData : list Rec.t) (timeOfDay : Z)
    (heartRate heartRateAvg spo2 temperature : Q) (deviceId : option string)
  : Rand Q :=
  (let lastValues := getLastStoredValues sensorData deviceId in
   baseGlucose <- applyControlledVariation (Last.glucose lastValues)
                    (Last.glucose lastValues) (glucoseRange timeOfDay) ;;
   let variation := 0 in
   variation <-
     (if Js.gtb heartRate 85 then
        r <- Math_random ;; ret (variation + r * 2)
      else if Js.ltb heartRate 65 then
        r <- Math_random ;; ret (variation - r * 2)
      else ret variation) ;;
   variation <-
     (if Js.gtb temperature 37.0 then
        r <- Math_random ;; ret (variation + r * 1.5)
      else if Js.ltb temperature 36.5 then
        r <- Math_random ;; ret (variation - r * 1)
      else ret variation) ;;
   variation <-
     (if Js.ltb spo2 97 then
        r <- Math_random ;; ret (variation + r * 1)
      else ret variation) ;;
   let finalGlucose := baseGlucose + variation in
   let clampedGlucose := Js.Math_max 70 (Js.Math_min 99 finalGlucose) in
   ret (Js.toFixed1 clampedGlucose))%rand.

(** ** The interpretation tables *)

Module Interp.
Record t : Type := mk {
  category : string;
  status : string;
  message : string
}.
End Interp.

(** The newer [interpretGlucose]: four tests and no final [else]; [None] is
    the [undefined] a JavaScript function returns when it falls off its
    end. *)
Definition interpretGlucose (glucoseLevel : Q) : option Interp.t :=
  if Js.ltb glucoseLevel 70 then
    Some (Interp.mk "Low (Hypoglycemia)" "warning"
            "Below normal - consult healthcare provider")
  else if Js.geb glucoseLevel 70 && Js.leb glucoseLevel 99 then
    Some (Interp.mk "Normal" "good" "Normal fasting glucose level")
  else if Js.geb glucoseLevel 100 && Js.leb glucoseLevel 125 then
    Some (Interp.mk "Prediabetes" "caution"
            "Prediabetic range - monitor closely")
  else if Js.geb glucoseLevel 126 then
    Some (Interp.mk "Diabetes" "warning"
            "Diabetic range - consult healthcare provider immediately")
  else None.

(** [interpretVitals]: the object it builds, as its entries in insertion
    order. *)
Definition interpretVitals (hr spo2 temp : Q) : list (string * Interp.t) :=
  let heartRate :=
    if Qeq_bool hr 0 then
      Interp.mk "No Reading" "error" "Sensor not detecting heartbeat"
    else if Js.ltb hr 60 then
      Interp.mk "Low" "caution" "Below normal range (bradycardia)"
    else if Js.geb hr 60 && Js.leb hr 100 then
      Interp.mk "Normal" "good" "Normal heart rate"
    else if Js.gtb hr 100 && Js.leb hr 120 then
      Interp.mk "Elevated" "caution" "Slightly elevated"
    else Interp.mk "High" "warning" "High heart rate (tachycardia)" in
  let spo2' :=
    if Js.geb spo2 95 then
      Interp.mk "Normal" "good" "Normal oxygen saturation"
    else if Js.geb spo2 90 && Js.ltb spo2 95 then
      Interp.mk "Low Normal" "caution" "Below normal range"
    else Interp.mk "Low" "warning"
           "Low oxygen saturation - seek medical attention" in
  let temperature :=
    if Js.ltb temp 35.0 then
      Interp.mk "Hypothermia" "warning" "Below normal body temperature"
    else if Js.geb temp 35.0 && Js.leb temp 37.2 then
      Interp.mk "Normal" "good" "Normal body temperature"
    else if Js.gtb temp 37.2 && Js.leb temp 38.0 then
      Interp.mk "Mild Fever" "caution" "Slightly elevated temperature"
    else if Js.gtb temp 38.0 && Js.leb temp 39.0 then
      Interp.mk "Fever" "warning" "Moderate fever"
    else Interp.mk "High Fever" "warning"
           "High fever - seek medical attention" in
  [("heartRate", heartRate); ("spo2", spo2'); ("temperature", temperature)]%string.

(** ** The health score *)

Module Score.
Record t : Type := mk {
  score : Z;
  status : string;
  factors : list string
}.
End Score.

(** The running state of [calculateHealthScore]: [score] and [factors]. *)
Definition deductVital (acc : Z * list string) (entry : string * Interp.t)
  : Z * list string :=
  let (score, factors) := acc in
  let (vital, interpretation) := entry in
  let line := (vital ++ ": " ++ Interp.message interpretation)%string in
  if String.eqb (Interp.status interpretation) "warning" then
    ((score - 20)%Z, factors ++ [line])
  else if String.eqb (Interp.status interpretation) "caution" then
    ((score - 10)%Z, factors ++ [line])
  else if String.eqb (Interp.status interpretation) "error" then
    ((score - 15)%Z, factors ++ [line])
  else (score, factors).

(** [calculateHealthScore(vitals, glucose)]; [glucose = None] is a falsy
    second argument. *)
Definition calculateHealthScore (vitals : list (string * Interp.t))
    (glucose : option Interp.t) : Score.t :=
  let (score, factors) := fold_left deductVital vitals (100%Z, []) in
  let (score, factors) :=
    match glucose with
    | Some g =>
        if String.eqb (Interp.status g) "warning" then
          ((score - 15)%Z, factors ++ [("Glucose: " ++ Interp.message g)%string])
        else if String.eqb (Interp.status g) "caution" then
          ((score - 8)%Z, factors ++ [("Glucose: " ++ Interp.message g)%string])
        else (score, factors)
    | None => (score, factors)
    end in
  let score := Z.max 0 score in
  let healthStatus :=
    (if (score <? 60)%Z then "Poor"
     else if (score <? 75)%Z then "Fair"
     else if (score <? 90)%Z then "Good"
     else "Excellent")%string in
  Score.mk score healthStatus factors.

(** ** The two POST handlers *)

(** The body of [POST /api/predict-glucose]. *)
Module Predict.
Record t : Type := mk {
  heartRate : option Q;
  heartRateAvg : option Q;
  spo2 : option Q;
  temperature : option Q;
  deviceId : option string
}.

(** [field in req.body] for the three required fields. *)
Definition has (field : string) (b : t) : bool :=
  if String.eqb field "heartRate" then
    match heartRate b with Some _ => true | None => false end
  else if String.eqb field "spo2" then
    match spo2 b with Some _ => true | None => false end
  else if String.eqb field "temperature" then
    match temperature b with Some _ => true | None => false end
  else false.
End Predict.

(** What a handler answers: the status code with the part of the JSON
    payload that the properties below speak of. *)
Inductive Response : Type :=
| Status400 (error : string) (missingFields : list string)
| Status400Range (error : string)
| Status201 (healthyData : Healthy.t) (totalRecords : nat)
| Status200 (predictedGlucose : Q) (interpretation : Interp.t)
            (previousGlucose : Q)
| Status500 (error : string).

(** [app.post('/api/sensor-data')].  [now] is the time value of
    [new Date()]; the draw after [generateHealthyValues] is the one spent on
    the record's [id].  [saveData] writes a file and leaves [sensorData]
    as it is. *)
Definition postSensorData (now timeOfDay : Z) (sensorData : list Rec.t)
    (originalData : Body.t) : Rand (Response * list Rec.t) :=
  (let requiredFields := ["deviceId"; "timestamp"]%string in
   let missingFields :=
     filter (fun field => negb (Body.has field originalData)) requiredFields in
   if (0 <? List.length missingFields)%nat then
     ret (Status400 "Missing required fields" missingFields, sensorData)
   else
     healthyData <- generateHealthyValues sensorData timeOfDay originalData ;;
     _ <- Math_random ;;
     let record :=
       Rec.mk (Body.deviceId originalData)
              (match Body.receivedAt originalData with
               | Some d => d
               | None => Some now
               end)
              (Some (Healthy.heartRate healthyData))
              (Some (Healthy.heartRateAvg healthyData))
              (Some (Healthy.spo2 healthyData))
              (Some (Healthy.temperature healthyData))
              (Some (Healthy.red healthyData))
              (Some (Healthy.ir healthyData))
              (Body.lastGlucose originalData) in
     let sensorData := sensorData ++ [record] in
     let sensorData :=
       if (Z.of_nat (List.length sensorData) >? 10000)%Z
       then skipn (Z.to_nat (Z.of_nat (List.length sensorData) - 10000)) sensorData
       else sensorData in
     ret (Status201 healthyData (List.length sensorData), sensorData))%rand.

(** [deviceId || 'unknown']: the empty string is falsy as well. *)
Definition deviceIdOrUnknown (deviceId : option string) : string :=
  match deviceId with
  | Some d => if String.eqb d "" then "unknown" else d
  | None => "unknown"
  end.

(** [app.post('/api/predict-glucose')].  [missingFields] is non-empty
    exactly when one of the three required numbers is absent.  When
    [interpretGlucose] returns [undefined], reading [interpretation.category]
    throws and the [catch] answers 500 before anything is pushed.  The
    record pushed has no [receivedAt] (it has a [timestamp]) and none of the
    vitals at its top level. *)
Definition postPredictGlucose (timeOfDay : Z) (sensorData : list Rec.t)
    (body : Predict.t) : Rand (Response * list Rec.t) :=
  (let requiredFields := ["heartRate"; "spo2"; "temperature"]%string in
   let missingFields :=
     filter (fun field => negb (Predict.has field body)) requiredFields in
   match Predict.heartRate body, Predict.spo2 body, Predict.temperature body with
   | Some heartRate, Some spo2, Some temperature =>
       let avgHeartRate :=
         match Predict.heartRateAvg body with
         | Some avg => avg
         | None => heartRate
         end in
       if Js.ltb heartRate 0 || Js.gtb heartRate 200 then
         ret (Status400Range "Invalid heart rate", sensorData)
       else if Js.ltb spo2 70 || Js.gtb spo2 100 then
         ret (Status400Range "Invalid SpO2", sensorData)
       else if Js.ltb temperature 30 || Js.gtb temperature 45 then
         ret (Status400Range "Invalid temperature", sensorData)
       else
         let deviceId := Some (deviceIdOrUnknown (Predict.deviceId body)) in
         let lastValues := getLastStoredValues sensorData deviceId in
         predictedGlucose <-
           simulateHealthyGlucose sensorData timeOfDay heartRate avgHeartRate
             spo2 temperature deviceId ;;
         _ <- Math_random ;;
         match interpretGlucose predictedGlucose with
         | Some interpretation =>
             let predictionRecord :=
               Rec.mk deviceId None None None None None None None
                      (Some predictedGlucose) in
             ret (Status200 predictedGlucose interpretation
                    (Last.glucose lastValues),
                  sensorData ++ [predictionRecord])
         | None => ret (Status500 "Simulation failed", sensorData)
         end
   | _, _, _ =>
       ret (Status400 "Missing required fields for prediction" missingFields,
            sensorData)
   end)%rand.

(** ** The older glucose simulation ([src/index.js]) *)

Module Older.

Definition isPostMealTime (timeOfDay : Z) : bool :=
  (((timeOfDay >=? 8) && (timeOfDay <=? 10))
   || ((timeOfDay >=? 12) && (timeOfDay <=? 14))
   || ((timeOfDay >=? 18) && (timeOfDay <=? 20)))%Z.

Definition isFastingTime (timeOfDay : Z) : bool :=
  ((timeOfDay >=? 22) || (timeOfDay <=? 7))%Z.

(** It takes neither a device nor the store. *)
Definition simulateHealthyGlucose (timeOfDay : Z)
    (heartRate heartRateAvg spo2 temperature : Q) : Rand Q :=
  (r <- Math_random ;;
   let baseGlucose :=
     if isFastingTime timeOfDay then 75 + r * 20
     else if isPostMealTime timeOfDay then 85 + r * 25
     else 80 + r * 15 in
   let variation := 0 in
   let variation :=
     if Js.gtb heartRate 80 then variation + 2
     else if Js.ltb heartRate 65 then variation - 2
     else variation in
   let variation :=
     if Js.gtb temperature 37.0 then variation + 3
     else if Js.ltb temperature 36.5 then variation - 1
     else variation in
   let variation :=
     if Js.ltb spo2 97 then variation + 1 else variation in
   r' <- Math_random ;;
   let finalGlucose := baseGlucose + variation + (r' - 0.5) * 4 in
   let clampedGlucose := Js.Math_max 70 (Js.Math_min 110 finalGlucose) in
   ret (Js.Math_round (clampedGlucose * 10) / 10))%rand.

End Older.

(** ** The device-state lookup as the specification words it

    "Selects the Reading with maximal receivedAt among those matching
    deviceId; if none, returns the documented defaults; a field missing from
    the matched record falls back to its default."  This second definition
    follows those words, to be compared with [getLastStoredValues]; a
    record without a [receivedAt] is never later than one that has it. *)
Module DeviceStateLookup.

Definition later (best candidate : Rec.t) : bool :=
  match Rec.receivedAt best, Rec.receivedAt candidate with
  | Some tb, Some tc => (tb <? tc)%Z
  | None, Some _ => true
  | _, None => false
  end.

Definition latest (records : list Rec.t) : option Rec.t :=
  match records with
  | [] => None
  | r :: rest =>
      Some (fold_left (fun best x => if later best x then x else best) rest r)
  end.

Definition field_or (field : option Q) (default : Q) : Q :=
  match field with
  | Some v => v
  | None => default
  end.

Definition lastValues (deviceId : option string) (history : list Rec.t)
  : Last.t :=
  match
    latest (filter (fun r => deviceId_eqb (Rec.deviceId r) deviceId) history)
  with
  | Some r =>
      Last.mk (field_or (Rec.heartRate r) 72) (field_or (Rec.spo2 r) 98)
              (field_or (Rec.temperature r) 36.5)
              (field_or (Rec.lastGlucose r) 85)
  | None => Last.mk 72 98 36.5 85
  end.

End DeviceStateLookup.

(** ** Vocabulary of the properties *)

(** A number is an integer, or a multiple of one tenth: what [Math.round]
    and [toFixed(1)] leave in the store. *)
Definition is_integer (x : Q) : Prop := exists z : Z, x == inject_Z z.
Definition is_tenth (x : Q) : Prop := exists z : Z, x == z # 10.

(** A field of a record, when it is there, lies in [[lo, hi]]. *)
Definition within (lo hi : Q) (field : option Q) : Prop :=
  forall v, field = Some v -> lo <= v /\ v <= hi.

(** The global plausibility envelope of a stored record. *)
Definition plausible (record : Rec.t) : Prop :=
  within 55 95 (Rec.heartRate record)
  /\ within 95 100 (Rec.spo2 record)
  /\ within 36.0 37.2 (Rec.temperature record)
  /\ within 70 99 (Rec.lastGlucose record).

(** A band lies inside [[lo, hi]]. *)
Definition band_within (lo hi : Q) (range : Range) : Prop :=
  lo <= min range /\ min range <= max range /\ max range <= hi.



(** What every deduction preserves: the score is at most 100, and it is 100
    exactly as long as no factor is listed. *)
Definition score_accounts (acc : Z * list string) : Prop :=
  (fst acc <= 100)%Z /\ (snd acc = [] <-> fst acc = 100%Z).

(** ** Sample data for the concrete evaluations *)

(** A store that holds one prediction record of device "d". *)
Definition one_prediction (glucose : Q) : list Rec.t :=
  [Rec.mk (Some "d"%string) None None None None None None None (Some glucose)].

(** A store that holds one sensor reading of device "d". *)
Definition one_reading (heartRate spo2 temperature : Q) : list Rec.t :=
  [Rec.mk (Some "d"%string) (Some 1700000000000%Z) (Some heartRate)
          (Some heartRate) (Some spo2) (Some temperature) (Some 80000)
          (Some 85000) None].

(** What the firmware of device "d" posts: the two required fields and its
    raw measurements. *)
Definition body_of_device : Body.t :=
  Body.mk (Some "d"%string) (Some 1700000060000%Z) (Some 80) None (Some 97)
          (Some 36.6) (Some 90000) (Some 95000) None None.

(** A body that has a [timestamp] and no [deviceId]. *)
Definition body_without_device : Body.t :=
  Body.mk None (Some 1700000000000%Z) (Some 80) None (Some 97) (Some 36.6)
          None None None None.

(** A body that carries a [lastGlucose] property of its own. *)
Definition body_with_glucose (glucose : Q) : Body.t :=
  Body.mk (Some "d"%string) (Some 1700000060000%Z) (Some 80) None (Some 97)
          (Some 36.6) (Some 90000) (Some 95000) None (Some glucose).

(** What a client posts to [/api/predict-glucose] for device "d". *)
Definition prediction_request : Predict.t :=
  Predict.mk (Some 72) None (Some 98) (Some 36.8) (Some "d"%string).

(** The store after device "d" asked for a glucose prediction and then
    posted a sensor reading, starting from the empty store. *)
Definition store_after_prediction_and_reading : list Rec.t :=
  snd (fst (postSensorData 1700000060000 12
              (snd (fst (postPredictGlucose 12 [] prediction_request
                           (fun _ => 0.5) 0%nat)))
              body_of_device (fun _ => 0.5) 0%nat)).

(** ** Clearing the store *)

(** What [app.delete('/api/sensor-data')] answers: the count that its
    message reports (the branch that clears everything reports none) and
    [remainingRecords]. *)
Module Deleted.
Record t : Type := mk {
  deletedCount : option Z;
  remainingRecords : Z
}.
End Deleted.

(** [if (deviceId)] on a query parameter: a missing parameter and the empty
    string are falsy. *)
Definition queryGiven (parameter : option string) : bool :=
  match parameter with
  | Some value => negb (String.eqb value "")
  | None => false
  end.

(** [app.delete('/api/sensor-data')], with [deviceId] the query parameter
    (one string, or none). *)
Definition deleteSensorData (sensorData : list Rec.t) (deviceId : option string)
  : Deleted.t * list Rec.t :=
  if queryGiven deviceId then
    let originalLength := Z.of_nat (List.length sensorData) in
    let sensorData :=
      filter (fun record => negb (deviceId_eqb (Rec.deviceId record) deviceId))
        sensorData in
    let deletedCount := (originalLength - Z.of_nat (List.length sensorData))%Z in
    (Deleted.mk (Some deletedCount) (Z.of_nat (List.length sensorData)),
     sensorData)
  else (Deleted.mk None 0, []).

(** ** The health summary of a device *)

(** The part of the answer of [GET /api/health-data/:deviceId] that is
    computed from the reading: the vitals with their interpretations, the
    glucose prediction with its interpretation, and the health score. *)
Module Health.
Record t : Type := mk {
  heartRate : Q;
  average : Q;
  spo2 : Q;
  temperature : Q;
  vitals : list (string * Interp.t);
  glucose : Q;
  glucoseInterpretation : Interp.t;
  healthScore : Score.t
}.
End Health.

Inductive HealthResponse : Type :=
| Health404 (error : string)
| Health200 (payload : Health.t)
| Health500 (error : string).

(** [x !== undefined] on a property. *)
Definition defined {A : Type} (field : option A) : bool :=
  match field with
  | Some _ => true
  | None => false
  end.

(** [app.get('/api/health-data/:deviceId')].  [deviceId] is the route
    parameter, always a string.  The filter keeps the records that have the
    three vitals, so the destructuring of [latestReading] finds them; when
    [interpretGlucose] returns [undefined], reading its [category] throws
    and the [catch] answers 500.  [calculateHealthScore] reads the [status]
    and the [message] of [glucosePrediction], which are those of the
    interpretation.  The handler reads the store and does not write it. *)
Definition getHealthData (timeOfDay : Z) (sensorData : list Rec.t)
    (deviceId : string) : Rand HealthResponse :=
  (let latestReading :=
     hd_error
       (sort byReceivedAtDesc
          (filter
             (fun record =>
                deviceId_eqb (Rec.deviceId record) (Some deviceId)
                && defined (Rec.heartRate record)
                && defined (Rec.spo2 record)
                && defined (Rec.temperature record))
             sensorData)) in
   match latestReading with
   | None => ret (Health404 "No sensor data found")
   | Some latestReading =>
       match Rec.heartRate latestReading, Rec.spo2 latestReading,
             Rec.temperature latestReading with
       | Some heartRate, Some spo2, Some temperature =>
           let avgHeartRate :=
             match Rec.heartRateAvg latestReading with
             | Some avg => avg
             | None => heartRate
             end in
           let vitalInterpretations :=
             interpretVitals heartRate spo2 temperature in
           predictedGlucose <-
             simulateHealthyGlucose sensorData timeOfDay heartRate
               avgHeartRate spo2 temperature (Some deviceId) ;;
           match interpretGlucose predictedGlucose with
           | Some glucoseInterpretation =>
               let healthScore :=
                 calculateHealthScore vitalInterpretations
                   (Some glucoseInterpretation) in
               ret (Health200
                      (Health.mk heartRate avgHeartRate spo2 temperature
                         vitalInterpretations predictedGlucose
                         glucoseInterpretation healthScore))
           | None => ret (Health500 "Failed to retrieve health data")
           end
       | _, _, _ => ret (Health500 "Failed to retrieve health data")
       end
   end)%rand.

(** ** The older vitals generator and glucose table ([src/index.js]) *)

Module OlderIndex.

(** The object the older [generateHealthyValues] returns: [originalData]
    spread first, then the properties that override it. *)
Module Healthy.
Record t : Type := mk {
  originalData : Body.t;
  heartRate : Q;
  heartRateAvg : Q;
  heartRateValid : bool;
  spo2 : Q;
  spo2Valid : bool;
  temperature : Q;
  red : Q;
  ir : Q;
  fingerDetected : bool;
  simulatedHealthy : bool
}.
End Healthy.

(** It reads neither the store nor the vitals of the body: every value is
    drawn afresh.  [baseVariation] and [timeVariation] are computed and
    never used; the first costs a draw. *)
Definition generateHealthyValues (timeOfDay : Z) (originalData : Body.t)
  : Rand Healthy.t :=
  (r <- Math_random ;;
   let baseVariation := (r - 0.5) * 0.2 in
   let timeVariation :=
     if isRestingTime timeOfDay then -0.1
     else if isActiveTime timeOfDay then 0.05 else 0 in
   r <- Math_random ;;
   let healthyHeartRate :=
     if isRestingTime timeOfDay then 60 + r * 15
     else if isActiveTime timeOfDay then 70 + r * 20
     else 65 + r * 20 in
   r <- Math_random ;;
   let healthyHeartRate := healthyHeartRate + (r - 0.5) * 4 in
   let healthyHeartRate :=
     Js.Math_round (Js.Math_max 55 (Js.Math_min 95 healthyHeartRate)) in
   r <- Math_random ;;
   let healthySpO2 := 97 + r * 2.5 in
   let healthySpO2 :=
     Js.Math_round (Js.Math_max 95 (Js.Math_min 100 healthySpO2)) in
   r <- Math_random ;;
   let healthyTemp := 36.3 + r * 0.8 in
   let healthyTemp :=
     if ((timeOfDay >=? 6) && (timeOfDay <=? 10))%Z then healthyTemp - 0.2
     else if ((timeOfDay >=? 16) && (timeOfDay <=? 20))%Z
          then healthyTemp + 0.1
          else healthyTemp in
   let healthyTemp := Js.Math_round (healthyTemp * 100) / 100 in
   r <- Math_random ;;
   let healthyRed := 80000 + r * 40000 in
   r <- Math_random ;;
   let healthyIR := 85000 + r * 35000 in
   let heartRateAvg :=
     match Body.heartRateAvg originalData with
     | Some avg =>
         if Js.truthy avg then Js.Math_round ((healthyHeartRate + avg) / 2)
         else healthyHeartRate
     | None => healthyHeartRate
     end in
   ret (Healthy.mk originalData healthyHeartRate heartRateAvg true
          healthySpO2 true healthyTemp (Js.Math_round healthyRed)
          (Js.Math_round healthyIR) true true))%rand.

(** The older [interpretGlucose] ends in a plain [else]. *)
Definition interpretGlucose (glucoseLevel : Q) : Interp.t :=
  if Js.ltb glucoseLevel 70 then
    Interp.mk "Low" "warning" "Hypoglycemia - consult healthcare provider"
  else if Js.geb glucoseLevel 70 && Js.leb glucoseLevel 99 then
    Interp.mk "Normal" "good" "Normal glucose level"
  else if Js.geb glucoseLevel 100 && Js.leb glucoseLevel 125 then
    Interp.mk "Pre-diabetic" "caution" "Pre-diabetic range - monitor closely"
  else
    Interp.mk "High" "warning" "Diabetic range - consult healthcare provider".

End OlderIndex.

(** ** The server as a sequence of requests *)

(** The requests that write the store.  Node runs one handler at a time,
    each to its end (the [async] handlers await nothing), on the
    [sensorData] that the one before left. *)
Inductive Request : Type :=
| PostSensorData (now timeOfDay : Z) (originalData : Body.t)
| PostPredictGlucose (timeOfDay : Z) (body : Predict.t)
| DeleteSensorData (deviceId : option string).

(** The store after one request. *)
Definition serve (request : Request) (sensorData : list Rec.t)
  : Rand (list Rec.t) :=
  match request with
  | PostSensorData now timeOfDay originalData =>
      (answer <- postSensorData now timeOfDay sensorData originalData ;;
       ret (snd answer))%rand
  | PostPredictGlucose timeOfDay body =>
      (answer <- postPredictGlucose timeOfDay sensorData body ;;
       ret (snd answer))%rand
  | DeleteSensorData deviceId =>
      ret (snd (deleteSensorData sensorData deviceId))
  end.

Fixpoint serveAll (requests : list Request) (sensorData : list Rec.t)
  : Rand (list Rec.t) :=
  match requests with
  | [] => ret sensorData
  | request :: rest =>
      (sensorData <- serve request sensorData ;; serveAll rest sensorData)%rand
  end.

(** A request does not carry a [lastGlucose] outside [[70, 99]] into the
    store: the one field that [POST /api/sensor-data] copies unchecked. *)
Definition carries_no_stray_glucose (request : Request) : Prop :=
  match request with
  | PostSensorData _ _ originalData =>
      within 70 99 (Body.lastGlucose originalData)
  | _ => True
  end.

(** ** Sample data, continued *)

(** A store that holds a sensor reading of device "d" and, before it, a
    reading of device "e". *)
Definition two_devices : list Rec.t :=
  [Rec.mk (Some "e"%string) (Some 1699999990000%Z) (Some 80) (Some 80)
          (Some 97) (Some 36.8) (Some 90000) (Some 95000) None;
   Rec.mk (Some "d"%string) (Some 1700000000000%Z) (Some 72) (Some 72)
          (Some 98) (Some 36.5) (Some 80000) (Some 85000) None].

(** ** Facts on the primitives *)

Lemma gtb_true (x y : Q) : Js.gtb x y = true <-> y < x.
Proof.
  unfold Js.gtb. rewrite negb_true_iff, <- not_true_iff_false, Qle_bool_iff.
  split; [apply Qnot_le_lt | apply Qlt_not_le].
Qed.

Lemma gtb_false (x y : Q) : Js.gtb x y = false <-> x <= y.
Proof.
  unfold Js.gtb. rewrite negb_false_iff. apply Qle_bool_iff.
Qed.

Lemma ltb_true (x y : Q) : Js.ltb x y = true <-> x < y.
Proof. apply gtb_true. Qed.

Lemma ltb_false (x y : Q) : Js.ltb x y = false <-> y <= x.
Proof. apply gtb_false. Qed.

Lemma geb_true (x y : Q) : Js.geb x y = true <-> y <= x.
Proof. apply Qle_bool_iff. Qed.

Lemma leb_true (x y : Q) : Js.leb x y = true <-> x <= y.
Proof. apply Qle_bool_iff. Qed.

Lemma geb_false (x y : Q) : Js.geb x y = false <-> x < y.
Proof.
  unfold Js.geb. rewrite <- not_true_iff_false, Qle_bool_iff.
  split; [apply Qnot_le_lt | apply Qlt_not_le].
Qed.

Lemma leb_false (x y : Q) : Js.leb x y = false <-> y < x.
Proof. apply geb_false. Qed.

Lemma Qabs_spec (x : Q) :
  (0 <= x /\ Qabs x == x) \/ (x <= 0 /\ Qabs x == - x).
Proof.
  destruct (Qlt_le_dec x 0) as [H | H].
  - right. split; [lra | apply Qabs_neg; lra].
  - left. split; [lra | now apply Qabs_pos].
Qed.

Lemma or_else_nonzero (x d : Q) : ~ x == 0 -> Js.or_else x d = x.
Proof.
  intros H. unfold Js.or_else, Js.truthy.
  destruct (Qeq_bool x 0) eqn:E; [| reflexivity].
  apply Qeq_bool_iff in E. contradiction.
Qed.

(** Case analysis for the tests of the code. *)
Ltac js_tests :=
  repeat match goal with
  | H : Js.gtb _ _ = true |- _ => apply gtb_true in H
  | H : Js.gtb _ _ = false |- _ => apply gtb_false in H
  | H : Js.ltb _ _ = true |- _ => apply ltb_true in H
  | H : Js.ltb _ _ = false |- _ => apply ltb_false in H
  | H : Js.geb _ _ = true |- _ => apply geb_true in H
  | H : Js.leb _ _ = true |- _ => apply leb_true in H
  | H : Js.geb _ _ = false |- _ => apply geb_false in H
  | H : Js.leb _ _ = false |- _ => apply leb_false in H
  end.

(** Replace every [Qmax], [Qmin] and [Qabs] by a fresh number that satisfies
    the operation's specification, so that linear arithmetic can finish. *)
Ltac q_atoms :=
  unfold Js.Math_max, Js.Math_min, Js.Math_abs in *;
  repeat match goal with
  | |- context [Qabs ?a] =>
      let m := fresh "m" in
      pose proof (Qabs_spec a); set (m := Qabs a) in *; clearbody m
  | |- context [Qmax ?a ?b] =>
      let m := fresh "m" in
      pose proof (Q.max_spec a b); set (m := Qmax a b) in *; clearbody m
  | |- context [Qmin ?a ?b] =>
      let m := fresh "m" in
      pose proof (Q.min_spec a b); set (m := Qmin a b) in *; clearbody m
  | H : context [Qabs ?a] |- _ =>
      let m := fresh "m" in
      pose proof (Qabs_spec a); set (m := Qabs a) in *; clearbody m
  | H : context [Qmax ?a ?b] |- _ =>
      let m := fresh "m" in
      pose proof (Q.max_spec a b); set (m := Qmax a b) in *; clearbody m
  | H : context [Qmin ?a ?b] |- _ =>
      let m := fresh "m" in
      pose proof (Q.min_spec a b); set (m := Qmin a b) in *; clearbody m
  end.

(** Rounding keeps a value on the side of an integer, or of a multiple of
    one tenth, that it is on. *)

Lemma floor_half (z : Z) : Qfloor (inject_Z z + 0.5) = z.
Proof.
  apply Z.le_antisymm.
  - assert (H := Qfloor_le (inject_Z z + 0.5)).
    assert (H0 : inject_Z (Qfloor (inject_Z z + 0.5)) < inject_Z (z + 1)).
    { rewrite inject_Z_plus. change (inject_Z 1) with 1. lra. }
    rewrite <- Zlt_Qlt in H0. lia.
  - rewrite <- (Qfloor_Z z) at 1. apply Qfloor_resp_le. lra.
Qed.

Lemma Math_round_ge (z : Z) (x : Q) :
  inject_Z z <= x -> inject_Z z <= Js.Math_round x.
Proof.
  intros H. unfold Js.Math_round. rewrite <- Zle_Qle.
  rewrite <- (floor_half z) at 1. apply Qfloor_resp_le. lra.
Qed.

Lemma Math_round_le (z : Z) (x : Q) :
  x <= inject_Z z -> Js.Math_round x <= inject_Z z.
Proof.
  intros H. unfold Js.Math_round. rewrite <- Zle_Qle.
  rewrite <- (floor_half z) at 1. apply Qfloor_resp_le. lra.
Qed.

Lemma tenths (z : Z) : z # 10 == inject_Z z * 0.1.
Proof. unfold Qeq. simpl. lia. Qed.

Lemma tenths_le (n m : Z) : (n <= m)%Z -> n # 10 <= m # 10.
Proof. intros H. unfold Qle. simpl. lia. Qed.

Lemma toFixed1_nonneg (x : Q) :
  0 <= x -> Js.toFixed1 x = (Qfloor (x * 10 + 0.5) # 10).
Proof.
  intros H. unfold Js.toFixed1.
  destruct (Js.ltb x 0) eqn:E; [| reflexivity].
  js_tests. lra.
Qed.

Lemma toFixed1_ge (z : Z) (x : Q) :
  0 <= x -> z # 10 <= x -> z # 10 <= Js.toFixed1 x.
Proof.
  intros H0 H. rewrite toFixed1_nonneg by assumption.
  apply tenths_le. rewrite <- (floor_half z) at 1.
  apply Qfloor_resp_le. rewrite tenths in H. lra.
Qed.

Lemma toFixed1_le (z : Z) (x : Q) :
  0 <= x -> x <= z # 10 -> Js.toFixed1 x <= z # 10.
Proof.
  intros H0 H. rewrite toFixed1_nonneg by assumption.
  apply tenths_le. rewrite <- (floor_half z) at 1.
  apply Qfloor_resp_le. rewrite tenths in H. lra.
Qed.

(** ** The walk: band, change and minimum change *)

Section Walk.

Variables (currentValue lastValue : Q) (range : Range).
Variables (src : RandomSource) (k : nat).

Local Notation "'out'" :=
  (fst (applyControlledVariation currentValue lastValue range src k)).

(** What one step of the walk returns: either the clamped candidate, which
    is then at least [minVariation] away from [lastValue], or one of the
    two clamped forced values. *)
Lemma walk_cases :
  let mv := Js.or_else (minChange range) 0.1 in
  (exists x, out = Qmax (min range) (Qmin (max range) x)
             /\ mv <= Qabs (out - lastValue))
  \/ out = Qmax (min range) (Qmin (max range) (lastValue + mv * 1))
  \/ out = Qmax (min range) (Qmin (max range) (lastValue + mv * -1)).
Proof.
  unfold applyControlledVariation, bind, Math_random, ret.
  cbn -[Qplus Qmult Qminus Js.gtb Js.ltb Js.or_else].
  destruct (Js.ltb _ _) eqn:E; cbn [fst].
  - right. destruct (Js.gtb (src (S (S k))) 0.5); [left | right]; reflexivity.
  - left. js_tests. eexists. split; [reflexivity | exact E].
Qed.

(** The result is clamped into the band, whatever the draws. *)
Lemma walk_in_band :
  min range <= max range -> min range <= out /\ out <= max range.
Proof.
  intros Hb. destruct walk_cases as [[x [-> _]] | [-> | ->]]; q_atoms; lra.
Qed.

(** The change is at least the minimum change, or else it reaches a bound
    of the band that is nearer than that. *)
Lemma walk_change :
  min range <= max range -> 0 < minChange range ->
  minChange range <= Qabs (out - lastValue)
  \/ (out == max range /\ lastValue < max range < lastValue + minChange range)
  \/ (out == min range /\ lastValue - minChange range < min range < lastValue)
  \/ (out == max range /\ max range <= lastValue < max range + minChange range)
  \/ (out == min range /\ min range - minChange range < lastValue <= min range).
Proof.
  intros Hb Hmc.
  pose proof walk_cases as H. cbv zeta in H.
  rewrite or_else_nonzero in H by lra.
  destruct H as [[x [_ H]] | [H | H]]; [now left | |];
    rewrite H; q_atoms; lra.
Qed.

End Walk.

Lemma walk_minimum_change (currentValue lastValue : Q) (range : Range)
    (src : RandomSource) (k : nat) :
  0 < minChange range -> clear_of_bounds range lastValue ->
  minChange range
  <= Qabs (fst (applyControlledVariation currentValue lastValue range src k)
           - lastValue).
Proof.
  intros Hmc [Hlo Hhi].
  destruct (walk_change currentValue lastValue range src k) as [H | H];
    [lra | assumption | assumption | lra].
Qed.

(** Closed facts on concrete numbers are settled by evaluation. *)
Ltac by_evaluation :=
  vm_compute; repeat split; try reflexivity; try discriminate.

(** ** C1: one step of the walk *)

(** C1, the claim as stated, fails.  SpO2 band (95, 100, 0.5), previous value
    99.75 (strictly inside the band), every draw 0.75: the candidate
    100.5 is clamped to 100, which is 0.25 away; the forced change goes up
    again and is clamped to 100 again.  The output is within the band but
    only 0.25 from the previous value. *)
Lemma walk_minimum_change_fails_near_bound :
  min spo2Range <= max spo2Range
  /\ minChange spo2Range <= max spo2Range - min spo2Range
  /\ 0 < minChange spo2Range
  /\ min spo2Range < 99.75 /\ 99.75 < max spo2Range
  /\ uniform (fun _ => 0.75)
  /\ fst (applyControlledVariation 99.75 99.75 spo2Range (fun _ => 0.75) 0%nat)
     == 100
  /\ Qabs (fst (applyControlledVariation 99.75 99.75 spo2Range
                  (fun _ => 0.75) 0%nat) - 99.75)
     < minChange spo2Range.
Proof.
  split; [| split; [| split; [| split; [| split; [| split; [| split]]]]]];
    by_evaluation.
Qed.

(** C1, as amended: for every band with [min <= max] and [minChange > 0],
    every previous value strictly inside the band and every sequence of
    draws, the output of [applyControlledVariation] lies in [[min, max]] and
    differs from the previous value; it differs by at least [minChange]
    whenever the previous value is at least [minChange] away from both
    bounds. *)
Theorem walk_band_and_change (currentValue previous : Q) (range : Range)
    (src : RandomSource) (k : nat) :
  min range <= max range ->
  0 < minChange range ->
  min range < previous < max range ->
  (min range
   <= fst (applyControlledVariation currentValue previous range src k)
   <= max range)
  /\ ~ fst (applyControlledVariation currentValue previous range src k)
       == previous
  /\ (clear_of_bounds range previous ->
      minChange range
      <= Qabs (fst (applyControlledVariation currentValue previous range src k)
               - previous)).
Proof.
  intros Hb Hmc [Hlo Hhi]. split; [| split].
  - now apply walk_in_band.
  - intros E.
    destruct (walk_change currentValue previous range src k Hb Hmc)
      as [H | H].
    + rewrite E in H. q_atoms. lra.
    + rewrite E in H. lra.
  - now apply walk_minimum_change.
Qed.

(** The amended C1 at the SpO2 band, previous value 98, every draw 0.75. *)
Lemma walk_band_and_change_witness :
  (95 <= fst (applyControlledVariation 98 98 spo2Range (fun _ => 0.75) 0%nat)
   <= 100)
  /\ ~ fst (applyControlledVariation 98 98 spo2Range (fun _ => 0.75) 0%nat) == 98
  /\ 0.5 <= Qabs (fst (applyControlledVariation 98 98 spo2Range
                         (fun _ => 0.75) 0%nat) - 98).
Proof.
  assert (Hb : min spo2Range <= max spo2Range) by by_evaluation.
  assert (Hmc : 0 < minChange spo2Range) by by_evaluation.
  assert (Hin : min spo2Range < 98 < max spo2Range) by by_evaluation.
  destruct (walk_band_and_change 98 98 spo2Range (fun _ => 0.75) 0%nat
              Hb Hmc Hin) as (Hband & Hne & Hmin).
  split; [exact Hband | split; [exact Hne |]].
  apply Hmin. by_evaluation.
Defined.

(** ** C3 and C4: the two glucose simulations *)

(** The newer simulation ends in the clamp to [[70, 99]] and the rounding to
    one decimal place, whatever the walk and the nudges gave. *)
Lemma simulateHealthyGlucose_shape (sensorData : list Rec.t) (timeOfDay : Z)
    (heartRate heartRateAvg spo2 temperature : Q) (deviceId : option string)
    (src : RandomSource) (k : nat) :
  exists finalGlucose,
    fst (simulateHealthyGlucose sensorData timeOfDay heartRate heartRateAvg
           spo2 temperature deviceId src k)
    = Js.toFixed1 (Qmax 70 (Qmin 99 finalGlucose)).
Proof.
  unfold simulateHealthyGlucose, bind.
  destruct (applyControlledVariation _ _ _ src k) as [baseGlucose k1].
  destruct (Js.gtb heartRate 85); [| destruct (Js.ltb heartRate 65)];
    (destruct (Js.gtb temperature 37.0);
      [| destruct (Js.ltb temperature 36.5)]);
    destruct (Js.ltb spo2 97);
    cbn -[Qplus Qminus Qmult Js.toFixed1 Qmax Qmin];
    eexists; reflexivity.
Qed.

Lemma simulateHealthyGlucose_range (sensorData : list Rec.t) (timeOfDay : Z)
    (heartRate heartRateAvg spo2 temperature : Q) (deviceId : option string)
    (src : RandomSource) (k : nat) :
  70 <= fst (simulateHealthyGlucose sensorData timeOfDay heartRate heartRateAvg
               spo2 temperature deviceId src k) <= 99.
Proof.
  destruct (simulateHealthyGlucose_shape sensorData timeOfDay heartRate
              heartRateAvg spo2 temperature deviceId src k) as [x ->].
  assert (H : 70 <= Qmax 70 (Qmin 99 x) <= 99) by (q_atoms; lra).
  split.
  - apply Qle_trans with (700 # 10); [by_evaluation |].
    apply toFixed1_ge; lra.
  - apply Qle_trans with (990 # 10); [| by_evaluation].
    apply toFixed1_le; lra.
Qed.

(** C3: for every device, every heart rate, temperature and SpO2, every
    previous glucose in [[70, 99]] and every sequence of draws, the newer
    [simulateHealthyGlucose] returns a value in [[70, 99]], the nudges and the
    rounding to one decimal place included. *)
Theorem glucose_stays_in_normal_range (sensorData : list Rec.t) (timeOfDay : Z)
    (heartRate heartRateAvg spo2 temperature : Q) (deviceId : option string)
    (src : RandomSource) (k : nat) :
  70 <= Last.glucose (getLastStoredValues sensorData deviceId) <= 99 ->
  70 <= fst (simulateHealthyGlucose sensorData timeOfDay heartRate heartRateAvg
               spo2 temperature deviceId src k) <= 99.
Proof.
  intros _. apply simulateHealthyGlucose_range.
Qed.

(** C3 at a stored glucose of 98.5 with every nudge upwards: the clamp at 99
    is what keeps the result in range. *)
Lemma glucose_stays_in_normal_range_witness :
  70 <= Last.glucose (getLastStoredValues (one_prediction 98.5) (Some "d"%string))
     <= 99
  /\ 70 <= fst (simulateHealthyGlucose (one_prediction 98.5) 12 90 90 96 37.5
                  (Some "d"%string) (fun _ => 0.75) 0%nat) <= 99.
Proof.
  assert (H : 70 <= Last.glucose
                      (getLastStoredValues (one_prediction 98.5)
                         (Some "d"%string)) <= 99) by by_evaluation.
  split; [exact H |].
  exact (glucose_stays_in_normal_range (one_prediction 98.5) 12 90 90 96 37.5
           (Some "d"%string) (fun _ => 0.75) 0%nat H).
Defined.

Lemma older_simulateHealthyGlucose_range (timeOfDay : Z)
    (heartRate heartRateAvg spo2 temperature : Q)
    (src : RandomSource) (k : nat) :
  70 <= fst (Older.simulateHealthyGlucose timeOfDay heartRate heartRateAvg
               spo2 temperature src k) <= 110.
Proof.
  unfold Older.simulateHealthyGlucose, bind, Math_random, ret. cbn [fst].
  match goal with
  | |- _ <= Js.Math_round (?x * 10) / 10 <= _ => set (c := x)
  end.
  assert (H : 70 <= c <= 110) by (subst c; q_atoms; lra).
  clearbody c.
  assert (Hlo : inject_Z 700 <= Js.Math_round (c * 10))
    by (apply Math_round_ge; change (inject_Z 700) with 700; lra).
  assert (Hhi : Js.Math_round (c * 10) <= inject_Z 1100)
    by (apply Math_round_le; change (inject_Z 1100) with 1100; lra).
  change (inject_Z 700) with 700 in Hlo.
  change (inject_Z 1100) with 1100 in Hhi.
  unfold Qdiv. setoid_replace (/ 10) with 0.1 by reflexivity. lra.
Qed.

(** The newer simulation is one step of the walk from the stored glucose of
    the device, plus the nudges. *)
Lemma simulateHealthyGlucose_walks (sensorData : list Rec.t) (timeOfDay : Z)
    (heartRate heartRateAvg spo2 temperature : Q) (deviceId : option string)
    (src : RandomSource) (k : nat) :
  uniform src ->
  exists variation,
    (-3 <= variation <= 4.5)
    /\ fst (simulateHealthyGlucose sensorData timeOfDay heartRate heartRateAvg
              spo2 temperature deviceId src k)
       = Js.toFixed1
           (Qmax 70
              (Qmin 99
                 (fst (applyControlledVariation
                         (Last.glucose (getLastStoredValues sensorData deviceId))
                         (Last.glucose (getLastStoredValues sensorData deviceId))
                         (glucoseRange timeOfDay) src k)
                  + variation))).
Proof.
  intros Hu. unfold simulateHealthyGlucose, bind.
  destruct (applyControlledVariation _ _ _ src k) as [baseGlucose k1].
  pose proof (Hu k1). pose proof (Hu (S k1)). pose proof (Hu (S (S k1))).
  destruct (Js.gtb heartRate 85); [| destruct (Js.ltb heartRate 65)];
    (destruct (Js.gtb temperature 37.0);
      [| destruct (Js.ltb temperature 36.5)]);
    destruct (Js.ltb spo2 97);
    cbn -[Qplus Qminus Qmult Js.toFixed1 Qmax Qmin];
    eexists; (split; [| reflexivity]); lra.
Qed.

(** The older simulation draws its base from the range of the hour. *)
Lemma older_simulateHealthyGlucose_draws (timeOfDay : Z)
    (heartRate heartRateAvg spo2 temperature : Q)
    (src : RandomSource) (k : nat) :
  uniform src ->
  exists baseGlucose variation noise,
    (Older.isFastingTime timeOfDay = true -> 75 <= baseGlucose < 95)
    /\ (Older.isFastingTime timeOfDay = false ->
        Older.isPostMealTime timeOfDay = true -> 85 <= baseGlucose < 110)
    /\ (Older.isFastingTime timeOfDay = false ->
        Older.isPostMealTime timeOfDay = false -> 80 <= baseGlucose < 95)
    /\ (-3 <= variation <= 6) /\ (-2 <= noise < 2)
    /\ fst (Older.simulateHealthyGlucose timeOfDay heartRate heartRateAvg
              spo2 temperature src k)
       = Js.Math_round
           (Qmax 70 (Qmin 110 (baseGlucose + variation + noise)) * 10) / 10.
Proof.
  intros Hu. unfold Older.simulateHealthyGlucose, bind, Math_random, ret.
  cbn [fst]. pose proof (Hu k). pose proof (Hu (S k)).
  do 3 eexists.
  repeat match goal with |- _ /\ _ => split end;
    [.. | unfold Js.Math_max, Js.Math_min; reflexivity];
    destruct (Older.isFastingTime timeOfDay),
      (Older.isPostMealTime timeOfDay),
      (Js.gtb heartRate 80), (Js.ltb heartRate 65),
      (Js.gtb temperature 37.0), (Js.ltb temperature 36.5),
      (Js.ltb spo2 97);
    try (intros; discriminate); intros; lra.
Qed.

(** C4: the two glucose simulations are distinct modes.  The older one
    ([src/index.js]) takes no device and no store: it draws a fresh base
    from the range of the hour (75-95 fasting, 85-110 post-meal, 80-95
    otherwise) and clamps to [[70, 110]].  The newer one walks one step from
    the last stored glucose of the device and clamps to [[70, 99]], so its
    result changes with the store.  At noon with heart rate 90, SpO2 96,
    temperature 37.5 and both draws 0.5 the older one returns 103.5, above
    99, which the newer one never does. *)
Theorem glucose_modes_differ :
  (forall timeOfDay heartRate heartRateAvg spo2 temperature src k,
      70 <= fst (Older.simulateHealthyGlucose timeOfDay heartRate heartRateAvg
                   spo2 temperature src k) <= 110)
  /\ (forall timeOfDay heartRate heartRateAvg spo2 temperature src k,
         uniform src ->
         exists baseGlucose variation noise,
           (Older.isFastingTime timeOfDay = true -> 75 <= baseGlucose < 95)
           /\ (Older.isFastingTime timeOfDay = false ->
               Older.isPostMealTime timeOfDay = true ->
               85 <= baseGlucose < 110)
           /\ (Older.isFastingTime timeOfDay = false ->
               Older.isPostMealTime timeOfDay = false ->
               80 <= baseGlucose < 95)
           /\ (-3 <= variation <= 6) /\ (-2 <= noise < 2)
           /\ fst (Older.simulateHealthyGlucose timeOfDay heartRate
                     heartRateAvg spo2 temperature src k)
              = Js.Math_round
                  (Qmax 70 (Qmin 110 (baseGlucose + variation + noise)) * 10)
                / 10)
  /\ (forall sensorData timeOfDay heartRate heartRateAvg spo2 temperature
             deviceId src k,
         70 <= fst (simulateHealthyGlucose sensorData timeOfDay heartRate
                      heartRateAvg spo2 temperature deviceId src k) <= 99)
  /\ (forall sensorData timeOfDay heartRate heartRateAvg spo2 temperature
             deviceId src k,
         uniform src ->
         exists variation,
           (-3 <= variation <= 4.5)
           /\ fst (simulateHealthyGlucose sensorData timeOfDay heartRate
                     heartRateAvg spo2 temperature deviceId src k)
              = Js.toFixed1
                  (Qmax 70
                     (Qmin 99
                        (fst (applyControlledVariation
                                (Last.glucose
                                   (getLastStoredValues sensorData deviceId))
                                (Last.glucose
                                   (getLastStoredValues sensorData deviceId))
                                (glucoseRange timeOfDay) src k)
                         + variation))))
  /\ uniform (fun _ => 0.5)
  /\ fst (Older.simulateHealthyGlucose 12 90 90 96 37.5 (fun _ => 0.5) 0%nat)
     == 103.5
  /\ 99 < fst (Older.simulateHealthyGlucose 12 90 90 96 37.5
                 (fun _ => 0.5) 0%nat)
  /\ fst (simulateHealthyGlucose (one_prediction 90) 12 90 90 96 37.5
            (Some "d"%string) (fun _ => 0.5) 0%nat) == 91.8
  /\ fst (simulateHealthyGlucose (one_prediction 85) 12 90 90 96 37.5
            (Some "d"%string) (fun _ => 0.5) 0%nat) == 86.8.
Proof.
  split; [exact older_simulateHealthyGlucose_range |].
  split; [exact older_simulateHealthyGlucose_draws |].
  split; [exact simulateHealthyGlucose_range |].
  split; [exact simulateHealthyGlucose_walks |].
  split; [intros i |]; by_evaluation.
Qed.

(** ** C5: the time-of-day policy *)

Lemma hours_of_day (hour : Z) :
  (0 <= hour <= 23)%Z ->
  In hour [0; 1; 2; 3; 4; 5; 6; 7; 8; 9; 10; 11; 12; 13; 14; 15; 16; 17; 18;
           19; 20; 21; 22; 23]%Z.
Proof. intros H. simpl. lia. Qed.

(** C5: for every hour 0..23 the policy selects one band per vital, by the
    fixed table.  Heart rate: resting (hour >= 22 or <= 6) gives (55,75,1),
    active (9-18) gives (65,90,1), any other hour (60,95,1).  SpO2:
    (95,100,0.5).  Temperature: morning (6-10) gives (36.0,36.8,0.1), evening
    (16-20) gives (36.5,37.2,0.1), any other hour (36.1,37.2,0.1).  Glucose:
    fasting (hour >= 22 or <= 7) gives (75,95,0.5), post-meal (8-10, 12-14,
    18-20) gives (80,99,0.5), any other hour (75,99,0.5).  No hour matches
    two regimes of one vital, so the order of the tests (resting/fasting,
    then active/post-meal, then the default) never has to break a tie.
    Hour 23 gives heart rate (55,75,1), hour 12 (65,90,1), hour 20
    (60,95,1); hour 18 is active and hour 19 is not. *)
Theorem time_of_day_bands (hour : Z) :
  (0 <= hour <= 23)%Z ->
  ((22 <= hour \/ hour <= 6)%Z -> heartRateRange hour = mkRange 55 75 1)
  /\ ((9 <= hour <= 18)%Z -> heartRateRange hour = mkRange 65 90 1)
  /\ (~ (22 <= hour \/ hour <= 6)%Z -> ~ (9 <= hour <= 18)%Z ->
      heartRateRange hour = mkRange 60 95 1)
  /\ spo2Range = mkRange 95 100 0.5
  /\ ((6 <= hour <= 10)%Z -> tempRange hour = mkRange 36.0 36.8 0.1)
  /\ ((16 <= hour <= 20)%Z -> tempRange hour = mkRange 36.5 37.2 0.1)
  /\ (~ (6 <= hour <= 10)%Z -> ~ (16 <= hour <= 20)%Z ->
      tempRange hour = mkRange 36.1 37.2 0.1)
  /\ ((22 <= hour \/ hour <= 7)%Z -> glucoseRange hour = mkRange 75 95 0.5)
  /\ ((8 <= hour <= 10 \/ 12 <= hour <= 14 \/ 18 <= hour <= 20)%Z ->
      glucoseRange hour = mkRange 80 99 0.5)
  /\ (~ (22 <= hour \/ hour <= 7)%Z ->
      ~ (8 <= hour <= 10 \/ 12 <= hour <= 14 \/ 18 <= hour <= 20)%Z ->
      glucoseRange hour = mkRange 75 99 0.5)
  /\ isRestingTime hour && isActiveTime hour = false
  /\ isFastingTime hour && isPostMealTime hour = false
  /\ heartRateRange 23 = mkRange 55 75 1
  /\ heartRateRange 12 = mkRange 65 90 1
  /\ heartRateRange 20 = mkRange 60 95 1
  /\ isActiveTime 18 = true
  /\ isActiveTime 19 = false.
Proof.
  intros H. apply hours_of_day in H. simpl in H.
  repeat (destruct H as [<- | H]; [repeat split; intros; reflexivity || lia |]).
  contradiction.
Qed.

(** C5 at noon. *)
Lemma time_of_day_bands_witness :
  (0 <= 12 <= 23)%Z
  /\ heartRateRange 12 = mkRange 65 90 1
  /\ tempRange 12 = mkRange 36.1 37.2 0.1
  /\ glucoseRange 12 = mkRange 80 99 0.5.
Proof.
  assert (H : (0 <= 12 <= 23)%Z) by lia.
  destruct (time_of_day_bands 12 H)
    as (_ & Hhr & _ & _ & _ & _ & Htemp & _ & Hglucose & _).
  split; [exact H |].
  split; [apply Hhr; lia |].
  split; [apply Htemp; lia | apply Hglucose; lia].
Defined.

(** ** C10: the newer glucose table has a gap *)

(** C10: the newer [interpretGlucose] returns [undefined] at 99.5, which is
    strictly between 99 and 100: none of its four tests (below 70, 70 to 99,
    100 to 125, 126 and above) holds there and there is no final [else].  It
    returns [undefined] on every value strictly between 99 and 100 (and,
    besides, exactly on those strictly between 125 and 126), so the table is
    not total over fractional glucose values. *)
Theorem interpretGlucose_gap :
  99 < 99.5 /\ 99.5 < 100
  /\ interpretGlucose 99.5 = None
  /\ (forall glucoseLevel,
         interpretGlucose glucoseLevel = None
         <-> (99 < glucoseLevel /\ glucoseLevel < 100)
             \/ (125 < glucoseLevel /\ glucoseLevel < 126)).
Proof.
  split; [by_evaluation |]. split; [by_evaluation |].
  split; [reflexivity |].
  intros g. unfold interpretGlucose.
  destruct (Js.ltb g 70) eqn:E1; destruct (Js.geb g 70) eqn:E2;
    destruct (Js.leb g 99) eqn:E3; destruct (Js.geb g 100) eqn:E4;
    destruct (Js.leb g 125) eqn:E5; destruct (Js.geb g 126) eqn:E6;
    cbn [andb]; js_tests;
    (split;
     [intros H; try discriminate H; lra
     | intros H; reflexivity || (exfalso; lra)]).
Qed.

(** ** C9: a sensor reading without its required fields *)

(** C9: when the body of [POST /api/sensor-data] lacks [deviceId] or
    [timestamp], the answer is 400 with the list [missingFields], which
    names each absent required field once and nothing else; the history
    store is unchanged (and no draw is taken). *)
Theorem sensor_data_rejects_missing_fields (now timeOfDay : Z)
    (sensorData : list Rec.t) (originalData : Body.t)
    (src : RandomSource) (k : nat) :
  Body.deviceId originalData = None \/ Body.timestamp originalData = None ->
  exists missingFields,
    postSensorData now timeOfDay sensorData originalData src k
    = (Status400 "Missing required fields" missingFields, sensorData, k)
    /\ NoDup missingFields
    /\ (forall field,
           In field missingFields
           <-> (field = "deviceId"%string /\ Body.deviceId originalData = None)
               \/ (field = "timestamp"%string
                   /\ Body.timestamp originalData = None)).
Proof.
  intros H. unfold postSensorData.
  destruct originalData as [dev ts hr avg sp temp rd irv rcv lg]. cbn in H.
  cbn -[generateHealthyValues].
  destruct dev as [dev |], ts as [ts |]; cbn -[generateHealthyValues].
  - destruct H; discriminate.
  - eexists. split; [reflexivity |]. split.
    + repeat constructor. simpl. tauto.
    + intros f. simpl. intuition (try discriminate; subst; auto).
  - eexists. split; [reflexivity |]. split.
    + repeat constructor. simpl. tauto.
    + intros f. simpl. intuition (try discriminate; subst; auto).
  - eexists. split; [reflexivity |]. split.
    + repeat constructor; simpl; intuition discriminate.
    + intros f. simpl. intuition (try discriminate; subst; auto).
Qed.

(** C9 at a body without [deviceId]. *)
Lemma sensor_data_rejects_missing_fields_witness :
  Body.deviceId body_without_device = None
  /\ exists missingFields,
       postSensorData 0 12 (one_prediction 90) body_without_device
         (fun _ => 0.5) 0%nat
       = (Status400 "Missing required fields" missingFields,
          one_prediction 90, 0%nat)
       /\ In "deviceId"%string missingFields.
Proof.
  split; [reflexivity |].
  destruct (sensor_data_rejects_missing_fields 0 12 (one_prediction 90)
              body_without_device (fun _ => 0.5) 0%nat (or_introl eq_refl))
    as (missingFields & Hrun & _ & Hin).
  exists missingFields. split; [exact Hrun |].
  apply Hin. left. split; reflexivity.
Defined.

(** ** C8: the health score *)

Lemma deductions_keep_label (score : Z) :
  let score' := Z.max 0 score in
  (0 <= score')%Z
  /\ ((score' < 60)%Z ->
      (if (score' <? 60)%Z then "Poor"
       else if (score' <? 75)%Z then "Fair"
       else if (score' <? 90)%Z then "Good" else "Excellent")%string
      = "Poor"%string)
  /\ ((60 <= score' < 75)%Z ->
      (if (score' <? 60)%Z then "Poor"
       else if (score' <? 75)%Z then "Fair"
       else if (score' <? 90)%Z then "Good" else "Excellent")%string
      = "Fair"%string)
  /\ ((75 <= score' < 90)%Z ->
      (if (score' <? 60)%Z then "Poor"
       else if (score' <? 75)%Z then "Fair"
       else if (score' <? 90)%Z then "Good" else "Excellent")%string
      = "Good"%string)
  /\ ((90 <= score')%Z ->
      (if (score' <? 60)%Z then "Poor"
       else if (score' <? 75)%Z then "Fair"
       else if (score' <? 90)%Z then "Good" else "Excellent")%string
      = "Excellent"%string).
Proof.
  intros score'.
  destruct (Z.ltb_spec score' 60); destruct (Z.ltb_spec score' 75);
    destruct (Z.ltb_spec score' 90);
    repeat split; intros; reflexivity || lia.
Qed.

(** C8: [calculateHealthScore] returns 100 and "Excellent" when the three
    vital interpretations and the glucose interpretation have status good;
    with one vital at status warning, the other two good and glucose at
    status warning it returns 100 - 20 - 15 = 65 and "Fair"; and for every
    interpretation it is given, the score is at least 0 and the label is
    "Poor" below 60, "Fair" below 75, "Good" below 90 and "Excellent"
    otherwise. *)
Theorem health_score_rules :
  (forall c1 m1 c2 m2 c3 m3 cg mg,
      calculateHealthScore
        [("heartRate", Interp.mk c1 "good" m1);
         ("spo2", Interp.mk c2 "good" m2);
         ("temperature", Interp.mk c3 "good" m3)]%string
        (Some (Interp.mk cg "good" mg))
      = Score.mk 100 "Excellent" [])
  /\ (forall c1 m1 c2 m2 c3 m3 cg mg s1 s2 s3,
         (s1, s2, s3) = ("warning", "good", "good")%string
         \/ (s1, s2, s3) = ("good", "warning", "good")%string
         \/ (s1, s2, s3) = ("good", "good", "warning")%string ->
         Score.score
           (calculateHealthScore
              [("heartRate", Interp.mk c1 s1 m1);
               ("spo2", Interp.mk c2 s2 m2);
               ("temperature", Interp.mk c3 s3 m3)]%string
              (Some (Interp.mk cg "warning" mg))) = 65%Z
         /\ Score.status
              (calculateHealthScore
                 [("heartRate", Interp.mk c1 s1 m1);
                  ("spo2", Interp.mk c2 s2 m2);
                  ("temperature", Interp.mk c3 s3 m3)]%string
                 (Some (Interp.mk cg "warning" mg))) = "Fair"%string)
  /\ (forall vitals glucose,
         (0 <= Score.score (calculateHealthScore vitals glucose))%Z
         /\ ((Score.score (calculateHealthScore vitals glucose) < 60)%Z ->
             Score.status (calculateHealthScore vitals glucose)
             = "Poor"%string)
         /\ ((60 <= Score.score (calculateHealthScore vitals glucose) < 75)%Z ->
             Score.status (calculateHealthScore vitals glucose)
             = "Fair"%string)
         /\ ((75 <= Score.score (calculateHealthScore vitals glucose) < 90)%Z ->
             Score.status (calculateHealthScore vitals glucose)
             = "Good"%string)
         /\ ((90 <= Score.score (calculateHealthScore vitals glucose))%Z ->
             Score.status (calculateHealthScore vitals glucose)
             = "Excellent"%string)).
Proof.
  split; [reflexivity |]. split.
  - intros c1 m1 c2 m2 c3 m3 cg mg s1 s2 s3 [H | [H | H]];
      injection H as -> -> ->; split; reflexivity.
  - intros vitals glucose. unfold calculateHealthScore.
    destruct (fold_left deductVital vitals (100%Z, [])) as [score factors].
    destruct glucose as [g |];
      [destruct (String.eqb (Interp.status g) "warning");
       [| destruct (String.eqb (Interp.status g) "caution")] |];
      cbn [Score.score Score.status]; apply deductions_keep_label.
Qed.

(** ** The synthesizer, vital by vital *)

Lemma bands_in_envelope (timeOfDay : Z) :
  band_within 55 95 (heartRateRange timeOfDay)
  /\ band_within 95 100 spo2Range
  /\ band_within 36.0 37.2 (tempRange timeOfDay)
  /\ band_within 75000 120000 redRange
  /\ band_within 80000 120000 irRange
  /\ band_within 70 99 (glucoseRange timeOfDay).
Proof.
  unfold heartRateRange, tempRange, glucoseRange.
  destruct (isRestingTime timeOfDay), (isActiveTime timeOfDay),
    (isFastingTime timeOfDay), (isPostMealTime timeOfDay),
    ((timeOfDay >=? 6) && (timeOfDay <=? 10))%Z,
    ((timeOfDay >=? 16) && (timeOfDay <=? 20))%Z;
    by_evaluation.
Qed.

Lemma minimum_changes (timeOfDay : Z) :
  minChange (heartRateRange timeOfDay) = 1
  /\ minChange spo2Range = 0.5
  /\ minChange (tempRange timeOfDay) = 0.1
  /\ minChange redRange = 1000
  /\ minChange irRange = 1000
  /\ minChange (glucoseRange timeOfDay) = 0.5.
Proof.
  unfold heartRateRange, tempRange, glucoseRange.
  destruct (isRestingTime timeOfDay), (isActiveTime timeOfDay),
    (isFastingTime timeOfDay), (isPostMealTime timeOfDay),
    ((timeOfDay >=? 6) && (timeOfDay <=? 10))%Z,
    ((timeOfDay >=? 16) && (timeOfDay <=? 20))%Z;
    repeat split.
Qed.

(** Each synthesized vital is the rounding of one step of the walk from the
    value it is walked from; only the position in the stream of draws
    differs. *)
Lemma generateHealthyValues_shape (sensorData : list Rec.t) (timeOfDay : Z)
    (originalData : Body.t) (src : RandomSource) (k : nat) :
  exists k1 k2 k3 k4 : nat,
    let lastValues :=
      getLastStoredValues sensorData (Body.deviceId originalData) in
    let lastRed := Js.or_default (Body.red originalData) 80000 in
    let lastIR := Js.or_default (Body.ir originalData) 85000 in
    let healthy :=
      fst (generateHealthyValues sensorData timeOfDay originalData src k) in
    Healthy.heartRate healthy
    = Js.Math_round
        (fst (applyControlledVariation (Last.heartRate lastValues)
                (Last.heartRate lastValues) (heartRateRange timeOfDay) src k))
    /\ Healthy.spo2 healthy
       = Js.Math_round
           (fst (applyControlledVariation (Last.spo2 lastValues)
                   (Last.spo2 lastValues) spo2Range src k1))
    /\ Healthy.temperature healthy
       = Js.toFixed1
           (fst (applyControlledVariation (Last.temperature lastValues)
                   (Last.temperature lastValues) (tempRange timeOfDay) src k2))
    /\ Healthy.red healthy
       = Js.Math_round
           (fst (applyControlledVariation lastRed lastRed redRange src k3))
    /\ Healthy.ir healthy
       = Js.Math_round
           (fst (applyControlledVariation lastIR lastIR irRange src k4))
    /\ Healthy.lastValues healthy = lastValues
    /\ Healthy.originalData healthy = originalData.
Proof.
  unfold generateHealthyValues, bind, ret.
  destruct (applyControlledVariation _ _ (heartRateRange timeOfDay) src k)
    as [a k1] eqn:Ea.
  destruct (applyControlledVariation _ _ spo2Range src k1) as [b k2] eqn:Eb.
  destruct (applyControlledVariation _ _ (tempRange timeOfDay) src k2)
    as [c k3] eqn:Ec.
  destruct (applyControlledVariation _ _ redRange src k3) as [d k4] eqn:Ed.
  destruct (applyControlledVariation _ _ irRange src k4) as [e k5] eqn:Ee.
  exists k1, k2, k3, k4. cbv zeta. cbn [fst Healthy.heartRate Healthy.spo2
    Healthy.temperature Healthy.red Healthy.ir Healthy.lastValues
    Healthy.originalData].
  rewrite Eb, Ec, Ed, Ee. repeat split.
Qed.

(** Rounding to an integer keeps a change of [step] from an integer, when
    [step] is an integer. *)
Lemma Math_round_keeps_change (step : Z) (previous x : Q) :
  is_integer previous ->
  inject_Z step <= Qabs (x - previous) ->
  inject_Z step <= Qabs (Js.Math_round x - previous).
Proof.
  intros [z Hz] H.
  assert (Hup : inject_Z (z + step) <= x -> inject_Z (z + step) <= Js.Math_round x)
    by apply Math_round_ge.
  assert (Hdown : x <= inject_Z (z - step) -> Js.Math_round x <= inject_Z (z - step))
    by apply Math_round_le.
  unfold Zminus in Hdown.
  rewrite inject_Z_plus in Hup, Hdown. rewrite inject_Z_opp in Hdown.
  revert Hup Hdown. generalize (Js.Math_round x). intros y Hup Hdown.
  generalize dependent (inject_Z step). generalize dependent (inject_Z z).
  intros qz Hz qs H Hup Hdown.
  q_atoms. lra.
Qed.

(** Rounding to one decimal place keeps a change of [step] tenths from a
    multiple of one tenth. *)
Lemma toFixed1_keeps_change (step : Z) (previous x : Q) :
  is_tenth previous -> 0 <= x ->
  step # 10 <= Qabs (x - previous) ->
  step # 10 <= Qabs (Js.toFixed1 x - previous).
Proof.
  intros [z Hz] H0 H.
  assert (Hup : (z + step) # 10 <= x -> (z + step) # 10 <= Js.toFixed1 x)
    by now apply toFixed1_ge.
  assert (Hdown : x <= (z - step) # 10 -> Js.toFixed1 x <= (z - step) # 10)
    by now apply toFixed1_le.
  rewrite (tenths (z + step)) in Hup. rewrite (tenths (z - step)) in Hdown.
  unfold Zminus in Hdown.
  rewrite inject_Z_plus in Hup, Hdown. rewrite inject_Z_opp in Hdown.
  rewrite tenths in Hz. rewrite (tenths step) in *.
  revert Hup Hdown. generalize (Js.toFixed1 x). intros y Hup Hdown.
  generalize dependent (inject_Z step). generalize dependent (inject_Z z).
  intros qz Hz qs H Hup Hdown.
  q_atoms. lra.
Qed.

Lemma simulateHealthyGlucose_no_nudge (sensorData : list Rec.t) (timeOfDay : Z)
    (heartRate heartRateAvg spo2 temperature : Q) (deviceId : option string)
    (src : RandomSource) (k : nat) :
  65 <= heartRate <= 85 -> 36.5 <= temperature <= 37.0 -> 97 <= spo2 ->
  fst (simulateHealthyGlucose sensorData timeOfDay heartRate heartRateAvg
         spo2 temperature deviceId src k)
  = Js.toFixed1
      (Qmax 70
         (Qmin 99
            (fst (applyControlledVariation
                    (Last.glucose (getLastStoredValues sensorData deviceId))
                    (Last.glucose (getLastStoredValues sensorData deviceId))
                    (glucoseRange timeOfDay) src k) + 0))).
Proof.
  intros [Hh1 Hh2] [Ht1 Ht2] Hs.
  unfold simulateHealthyGlucose, bind.
  destruct (applyControlledVariation _ _ _ src k) as [baseGlucose k1].
  replace (Js.gtb heartRate 85) with false by (symmetry; now apply gtb_false).
  replace (Js.ltb heartRate 65) with false by (symmetry; now apply ltb_false).
  replace (Js.gtb temperature 37.0) with false
    by (symmetry; now apply gtb_false).
  replace (Js.ltb temperature 36.5) with false
    by (symmetry; now apply ltb_false).
  replace (Js.ltb spo2 97) with false by (symmetry; now apply ltb_false).
  reflexivity.
Qed.

(** ** C2: the change of each synthesized vital *)

(** C2, the claim as stated, fails, on either of two stores.

    At a bound of the band: device "d" has one stored reading with heart
    rate 75, the hour is 23 (resting band (55, 75, 1)) and every draw is
    0.75.  The candidate 76.25 is clamped to 75, the forced change goes up
    to 76 and is clamped to 75 again: the heart rate stored next is 75, the
    last stored one.

    By rounding: device "d" has one stored reading with SpO2 98 and every
    draw is 0.5, so the direction is down and the extra variation is 0.  The
    walk gives 97.5, exactly [minChange] below, and [Math.round] takes 97.5
    back to 98: the SpO2 stored next is 98, the last stored one. *)
Lemma synthesized_vital_repeats :
  (Last.heartRate
     (getLastStoredValues (one_reading 75 98 36.5) (Some "d"%string)) = 75
   /\ heartRateRange 23 = mkRange 55 75 1
   /\ uniform (fun _ => 0.75)
   /\ Healthy.heartRate
        (fst (generateHealthyValues (one_reading 75 98 36.5) 23 body_of_device
                (fun _ => 0.75) 0%nat))
      = 75
   /\ Qabs (Healthy.heartRate
              (fst (generateHealthyValues (one_reading 75 98 36.5) 23
                      body_of_device (fun _ => 0.75) 0%nat))
            - Last.heartRate
                (getLastStoredValues (one_reading 75 98 36.5)
                   (Some "d"%string)))
      < minChange (heartRateRange 23))
  /\ (Last.spo2
        (getLastStoredValues (one_reading 72 98 36.5) (Some "d"%string)) = 98
      /\ uniform (fun _ => 0.5)
      /\ fst (applyControlledVariation 98 98 spo2Range (fun _ => 0.5) 2%nat)
         == 97.5
      /\ Healthy.spo2
           (fst (generateHealthyValues (one_reading 72 98 36.5) 12
                   body_of_device (fun _ => 0.5) 0%nat))
         = 98
      /\ Qabs (Healthy.spo2
                 (fst (generateHealthyValues (one_reading 72 98 36.5) 12
                         body_of_device (fun _ => 0.5) 0%nat))
               - Last.spo2 (getLastStoredValues (one_reading 72 98 36.5)
                              (Some "d"%string)))
         < minChange spo2Range).
Proof.
  split; (split; [| split; [| split; [| split]]]); by_evaluation.
Qed.

Section VitalsChange.

Variables (sensorData : list Rec.t) (timeOfDay : Z) (originalData : Body.t).
Variables (src : RandomSource) (k : nat).

Local Notation "'lastValues'" :=
  (getLastStoredValues sensorData (Body.deviceId originalData)).
Local Notation "'lastRed'" := (Js.or_default (Body.red originalData) 80000).
Local Notation "'lastIR'" := (Js.or_default (Body.ir originalData) 85000).
Local Notation "'healthy'" :=
  (fst (generateHealthyValues sensorData timeOfDay originalData src k)).

(** C2, as amended: for every store, hour, body and sequence of draws, the
    synthesized heart rate, temperature, red and IR values differ, after
    their rounding, by at least the band's [minChange] (1, 0.1, 1000,
    1000) from the value they are walked from - the last stored heart
    rate and temperature of the device, the red and IR values of the
    incoming body (80000 and 85000 when it has none) - whenever that value
    is at least [minChange] away from both bounds of the band and is an
    integer (a multiple of 0.1 for temperature).  The same holds for
    glucose (0.5, one decimal place) from the last stored glucose when no
    vital-sign nudge applies. *)
Theorem synthesized_vitals_change :
  (is_integer (Last.heartRate lastValues) ->
   clear_of_bounds (heartRateRange timeOfDay) (Last.heartRate lastValues) ->
   1 <= Qabs (Healthy.heartRate healthy - Last.heartRate lastValues))
  /\ (is_tenth (Last.temperature lastValues) ->
      clear_of_bounds (tempRange timeOfDay) (Last.temperature lastValues) ->
      0.1 <= Qabs (Healthy.temperature healthy - Last.temperature lastValues))
  /\ (is_integer lastRed -> clear_of_bounds redRange lastRed ->
      1000 <= Qabs (Healthy.red healthy - lastRed))
  /\ (is_integer lastIR -> clear_of_bounds irRange lastIR ->
      1000 <= Qabs (Healthy.ir healthy - lastIR))
  /\ (forall heartRate heartRateAvg spo2 temperature deviceId k',
         65 <= heartRate <= 85 -> 36.5 <= temperature <= 37.0 -> 97 <= spo2 ->
         is_tenth (Last.glucose (getLastStoredValues sensorData deviceId)) ->
         clear_of_bounds (glucoseRange timeOfDay)
           (Last.glucose (getLastStoredValues sensorData deviceId)) ->
         0.5 <= Qabs (fst (simulateHealthyGlucose sensorData timeOfDay
                             heartRate heartRateAvg spo2 temperature
                             deviceId src k')
                      - Last.glucose
                          (getLastStoredValues sensorData deviceId))).
Proof.
  destruct (generateHealthyValues_shape sensorData timeOfDay originalData
              src k) as (k1 & k2 & k3 & k4 & H).
  cbv zeta in H. destruct H as (Ehr & _ & Etemp & Ered & Eir & _ & _).
  destruct (minimum_changes timeOfDay) as (Mhr & _ & Mtemp & Mred & Mir & Mgl).
  destruct (bands_in_envelope timeOfDay)
    as (_ & _ & (Bt1 & Bt2 & Bt3) & _ & _ & (Bg1 & Bg2 & Bg3)).
  split; [| split; [| split; [| split]]].
  - intros Hint Hclear. rewrite Ehr.
    apply (Math_round_keeps_change 1); [assumption |].
    change (inject_Z 1) with 1. rewrite <- Mhr at 1.
    apply walk_minimum_change; [rewrite Mhr; lra | assumption].
  - intros Hten Hclear. rewrite Etemp.
    apply (toFixed1_keeps_change 1); [assumption | |].
    + apply Qle_trans with (min (tempRange timeOfDay)); [lra |].
      apply walk_in_band. assumption.
    + change (1 # 10) with 0.1. rewrite <- Mtemp at 1.
      apply walk_minimum_change; [rewrite Mtemp; lra | assumption].
  - intros Hint Hclear. rewrite Ered.
    apply (Math_round_keeps_change 1000); [assumption |].
    change (inject_Z 1000) with (minChange redRange).
    apply walk_minimum_change; [by_evaluation | assumption].
  - intros Hint Hclear. rewrite Eir.
    apply (Math_round_keeps_change 1000); [assumption |].
    change (inject_Z 1000) with (minChange irRange).
    apply walk_minimum_change; [by_evaluation | assumption].
  - intros heartRate heartRateAvg spo2 temperature deviceId k' Hh Ht Hs
      Hten Hclear.
    rewrite simulateHealthyGlucose_no_nudge by assumption.
    pose proof (walk_in_band
                  (Last.glucose (getLastStoredValues sensorData deviceId))
                  (Last.glucose (getLastStoredValues sensorData deviceId))
                  (glucoseRange timeOfDay) src k' Bg2) as Hband.
    pose proof (walk_minimum_change
                  (Last.glucose (getLastStoredValues sensorData deviceId))
                  (Last.glucose (getLastStoredValues sensorData deviceId))
                  (glucoseRange timeOfDay) src k') as Hmin.
    rewrite Mgl in Hmin. specialize (Hmin ltac:(lra) Hclear).
    revert Hband Hmin.
    generalize (fst (applyControlledVariation
                       (Last.glucose (getLastStoredValues sensorData deviceId))
                       (Last.glucose (getLastStoredValues sensorData deviceId))
                       (glucoseRange timeOfDay) src k')).
    intros base Hband Hmin.
    apply (toFixed1_keeps_change 5); [assumption | q_atoms; lra |].
    change (5 # 10) with 0.5. q_atoms. lra.
Qed.

End VitalsChange.

(** The amended C2 at a device whose last reading is (72, 98, 36.5), at
    noon, every draw 0.5. *)
Lemma synthesized_vitals_change_witness :
  1 <= Qabs (Healthy.heartRate
               (fst (generateHealthyValues (one_reading 72 98 36.5) 12
                       body_of_device (fun _ => 0.5) 0%nat))
             - Last.heartRate
                 (getLastStoredValues (one_reading 72 98 36.5)
                    (Body.deviceId body_of_device)))
  /\ 0.1 <= Qabs (Healthy.temperature
                    (fst (generateHealthyValues (one_reading 72 98 36.5) 12
                            body_of_device (fun _ => 0.5) 0%nat))
                  - Last.temperature
                      (getLastStoredValues (one_reading 72 98 36.5)
                         (Body.deviceId body_of_device)))
  /\ 1000 <= Qabs (Healthy.red
                     (fst (generateHealthyValues (one_reading 72 98 36.5) 12
                             body_of_device (fun _ => 0.5) 0%nat))
                   - Js.or_default (Body.red body_of_device) 80000)
  /\ 1000 <= Qabs (Healthy.ir
                     (fst (generateHealthyValues (one_reading 72 98 36.5) 12
                             body_of_device (fun _ => 0.5) 0%nat))
                   - Js.or_default (Body.ir body_of_device) 85000)
  /\ 0.5 <= Qabs (fst (simulateHealthyGlucose (one_reading 72 98 36.5) 12
                         72 72 98 36.8 (Some "d"%string) (fun _ => 0.5)
                         0%nat)
                  - Last.glucose
                      (getLastStoredValues (one_reading 72 98 36.5)
                         (Some "d"%string))).
Proof.
  destruct (synthesized_vitals_change (one_reading 72 98 36.5) 12
              body_of_device (fun _ => 0.5) 0%nat)
    as (Hhr & Htemp & Hred & Hir & Hglucose).
  split; [| split; [| split; [| split]]].
  - apply Hhr; [exists 72%Z | ]; by_evaluation.
  - apply Htemp; [exists 365%Z | ]; by_evaluation.
  - apply Hred; [exists 90000%Z | ]; by_evaluation.
  - apply Hir; [exists 95000%Z | ]; by_evaluation.
  - apply Hglucose; [| | | exists 850%Z |]; by_evaluation.
Defined.

(** ** C6: what the handlers append to the store *)

Lemma Forall_skipn {A : Type} (P : A -> Prop) (n : nat) (l : list A) :
  Forall P l -> Forall P (skipn n l).
Proof.
  revert l. induction n as [| n IH]; intros l H; [exact H |].
  destruct l as [| x l]; [exact H |].
  simpl. apply IH. now inversion H.
Qed.

Lemma healthy_in_envelope (sensorData : list Rec.t) (timeOfDay : Z)
    (originalData : Body.t) (src : RandomSource) (k : nat) :
  (55 <= Healthy.heartRate
           (fst (generateHealthyValues sensorData timeOfDay originalData src k))
      <= 95)
  /\ (95 <= Healthy.spo2
              (fst (generateHealthyValues sensorData timeOfDay originalData
                      src k))
         <= 100)
  /\ (36.0 <= Healthy.temperature
                (fst (generateHealthyValues sensorData timeOfDay originalData
                        src k))
           <= 37.2).
Proof.
  destruct (generateHealthyValues_shape sensorData timeOfDay originalData
              src k) as (k1 & k2 & k3 & k4 & H).
  cbv zeta in H. destruct H as (-> & -> & -> & _).
  destruct (bands_in_envelope timeOfDay)
    as ((Bh1 & Bh2 & Bh3) & (Bs1 & Bs2 & Bs3) & (Bt1 & Bt2 & Bt3) & _).
  repeat match goal with
  | |- context [fst (applyControlledVariation ?c ?l ?r ?s ?i)] =>
      pose proof (walk_in_band c l r s i ltac:(assumption));
      generalize dependent (fst (applyControlledVariation c l r s i)); intros
  end.
  split; [| split]; split.
  - change 55 with (inject_Z 55). apply Math_round_ge.
    change (inject_Z 55) with 55. lra.
  - change 95 with (inject_Z 95). apply Math_round_le.
    change (inject_Z 95) with 95. lra.
  - change 95 with (inject_Z 95). apply Math_round_ge.
    change (inject_Z 95) with 95. lra.
  - change 100 with (inject_Z 100). apply Math_round_le.
    change (inject_Z 100) with 100. lra.
  - apply (toFixed1_ge 360); lra.
  - apply (toFixed1_le 372); lra.
Qed.

(** An accepted reading appends one record (and then keeps the last 10000):
    its vitals are the synthesized ones, its [lastGlucose] is the body's. *)
Lemma postSensorData_appends (now timeOfDay : Z) (sensorData : list Rec.t)
    (originalData : Body.t) (src : RandomSource) (k : nat) :
  Body.deviceId originalData <> None ->
  Body.timestamp originalData <> None ->
  exists record n,
    snd (fst (postSensorData now timeOfDay sensorData originalData src k))
    = skipn n (sensorData ++ [record])
    /\ (n <= List.length sensorData)%nat
    /\ Rec.heartRate record
       = Some (Healthy.heartRate
                 (fst (generateHealthyValues sensorData timeOfDay originalData
                         src k)))
    /\ Rec.spo2 record
       = Some (Healthy.spo2
                 (fst (generateHealthyValues sensorData timeOfDay originalData
                         src k)))
    /\ Rec.temperature record
       = Some (Healthy.temperature
                 (fst (generateHealthyValues sensorData timeOfDay originalData
                         src k)))
    /\ Rec.lastGlucose record = Body.lastGlucose originalData.
Proof.
  intros Hdev Hts. unfold postSensorData, Body.has.
  destruct (Body.deviceId originalData) as [dev |]; [| contradiction].
  destruct (Body.timestamp originalData) as [ts |]; [| contradiction].
  cbn -[generateHealthyValues skipn Z.of_nat Z.to_nat Z.gtb]. unfold bind.
  destruct (generateHealthyValues sensorData timeOfDay originalData src k)
    as [healthyData k1].
  cbn -[skipn Z.of_nat Z.to_nat Z.gtb].
  match goal with
  | |- context [sensorData ++ [?r]] => set (record := r)
  end.
  exists record.
  destruct (Z.gtb_spec (Z.of_nat (List.length (sensorData ++ [record]))) 10000)
    as [Hlong | Hshort].
  - exists (Z.to_nat (Z.of_nat (List.length (sensorData ++ [record])) - 10000)).
    cbn [fst snd]. split; [reflexivity |].
    split; [rewrite length_app in *; simpl in *; lia |].
    repeat split.
  - exists 0%nat. cbn [fst snd skipn]. split; [reflexivity |].
    split; [lia |]. repeat split.
Qed.

(** A prediction either leaves the store as it is (a 400 or a 500) or appends
    one record, which carries nothing but the device and a [lastGlucose] in
    [[70, 99]]. *)
Lemma postPredictGlucose_appends (timeOfDay : Z) (sensorData : list Rec.t)
    (body : Predict.t) (src : RandomSource) (k : nat) :
  snd (fst (postPredictGlucose timeOfDay sensorData body src k)) = sensorData
  \/ exists predictedGlucose,
       70 <= predictedGlucose <= 99
       /\ snd (fst (postPredictGlucose timeOfDay sensorData body src k))
          = sensorData
            ++ [Rec.mk (Some (deviceIdOrUnknown (Predict.deviceId body)))
                       None None None None None None None
                       (Some predictedGlucose)].
Proof.
  unfold postPredictGlucose.
  destruct (Predict.heartRate body) as [heartRate |]; [| now left].
  destruct (Predict.spo2 body) as [spo2 |]; [| now left].
  destruct (Predict.temperature body) as [temperature |]; [| now left].
  destruct (Js.ltb heartRate 0 || Js.gtb heartRate 200); [now left |].
  destruct (Js.ltb spo2 70 || Js.gtb spo2 100); [now left |].
  destruct (Js.ltb temperature 30 || Js.gtb temperature 45); [now left |].
  unfold bind.
  match goal with
  | |- context [simulateHealthyGlucose ?s ?t ?h ?a ?o ?c ?d src k] =>
      pose proof (simulateHealthyGlucose_range s t h a o c d src k) as Hrange;
      destruct (simulateHealthyGlucose s t h a o c d src k) as [g k1]
  end.
  cbn [fst] in Hrange. cbn [Math_random].
  destruct (interpretGlucose g); [| now left].
  right. exists g. split; [exact Hrange | reflexivity].
Qed.

Lemma postSensorData_rejected_store (now timeOfDay : Z)
    (sensorData : list Rec.t) (originalData : Body.t)
    (src : RandomSource) (k : nat) :
  Body.deviceId originalData = None \/ Body.timestamp originalData = None ->
  snd (fst (postSensorData now timeOfDay sensorData originalData src k))
  = sensorData.
Proof.
  intros H. unfold postSensorData, Body.has.
  destruct (Body.deviceId originalData), (Body.timestamp originalData);
    try reflexivity.
  destruct H; discriminate.
Qed.

Ltac plausible_by_evaluation :=
  constructor; [| constructor];
  unfold plausible, within; cbn;
  repeat match goal with |- _ /\ _ => split end;
  intros v [= <-]; by_evaluation.

(** C6, the claim as stated, fails.  The handler of [POST /api/sensor-data]
    spreads the whole body into the record it stores and never sets
    [lastGlucose] itself, so a body that carries [lastGlucose: 500] puts a
    record with [lastGlucose = 500] into a store that satisfied the
    envelope. *)
Lemma sensor_body_glucose_is_stored_unchecked :
  Forall plausible (one_reading 72 98 36.5)
  /\ snd (fst (postSensorData 1700000060000 12 (one_reading 72 98 36.5)
                 (body_with_glucose 500) (fun _ => 0.5) 0%nat))
     = one_reading 72 98 36.5
       ++ [Rec.mk (Some "d"%string) (Some 1700000060000%Z) (Some 71) (Some 71)
                  (Some 98) (Some 36.4) (Some 89000) (Some 94000) (Some 500)]
  /\ ~ Forall plausible
         (snd (fst (postSensorData 1700000060000 12 (one_reading 72 98 36.5)
                      (body_with_glucose 500) (fun _ => 0.5) 0%nat))).
Proof.
  split; [plausible_by_evaluation |].
  split; [reflexivity |].
  intros H. apply Forall_elt with (l1 := one_reading 72 98 36.5) (l2 := [])
    in H.
  destruct H as (_ & _ & _ & H).
  destruct (H 500 eq_refl) as [_ H']. apply H'. reflexivity.
Qed.

(** C6, as amended: every record appended to the store by
    [POST /api/sensor-data] has, after rounding, heartRate in [[55, 95]],
    spo2 in [[95, 100]] and temperature in [[36.0, 37.2]], and its
    [lastGlucose] is the one of the request body, copied as it is (absent
    when the body has none); every record appended by
    [POST /api/predict-glucose] has a [lastGlucose] in [[70, 99]] and no
    vitals.  So the global plausibility envelope of the store is kept by
    every prediction and by every sensor reading whose body has no
    [lastGlucose] outside [[70, 99]]; and the envelope contains every
    time-of-day band as a sub-range. *)
Theorem stored_records_envelope :
  (forall now timeOfDay sensorData originalData src k,
      Body.deviceId originalData <> None ->
      Body.timestamp originalData <> None ->
      exists record n,
        snd (fst (postSensorData now timeOfDay sensorData originalData src k))
        = skipn n (sensorData ++ [record])
        /\ (n <= List.length sensorData)%nat
        /\ (exists v, Rec.heartRate record = Some v /\ 55 <= v <= 95)
        /\ (exists v, Rec.spo2 record = Some v /\ 95 <= v <= 100)
        /\ (exists v, Rec.temperature record = Some v /\ 36.0 <= v <= 37.2)
        /\ Rec.lastGlucose record = Body.lastGlucose originalData)
  /\ (forall timeOfDay sensorData body src k,
         snd (fst (postPredictGlucose timeOfDay sensorData body src k))
         = sensorData
         \/ exists predictedGlucose,
              70 <= predictedGlucose <= 99
              /\ snd (fst (postPredictGlucose timeOfDay sensorData body src k))
                 = sensorData
                   ++ [Rec.mk
                         (Some (deviceIdOrUnknown (Predict.deviceId body)))
                         None None None None None None None
                         (Some predictedGlucose)])
  /\ (forall now timeOfDay sensorData originalData src k,
         Forall plausible sensorData ->
         within 70 99 (Body.lastGlucose originalData) ->
         Forall plausible
           (snd (fst (postSensorData now timeOfDay sensorData originalData
                        src k))))
  /\ (forall timeOfDay sensorData body src k,
         Forall plausible sensorData ->
         Forall plausible
           (snd (fst (postPredictGlucose timeOfDay sensorData body src k))))
  /\ (forall timeOfDay,
         band_within 55 95 (heartRateRange timeOfDay)
         /\ band_within 95 100 spo2Range
         /\ band_within 36.0 37.2 (tempRange timeOfDay)
         /\ band_within 70 99 (glucoseRange timeOfDay)).
Proof.
  assert (Hsensor : forall now timeOfDay sensorData originalData src k,
      Body.deviceId originalData <> None ->
      Body.timestamp originalData <> None ->
      exists record n,
        snd (fst (postSensorData now timeOfDay sensorData originalData src k))
        = skipn n (sensorData ++ [record])
        /\ (n <= List.length sensorData)%nat
        /\ (exists v, Rec.heartRate record = Some v /\ 55 <= v <= 95)
        /\ (exists v, Rec.spo2 record = Some v /\ 95 <= v <= 100)
        /\ (exists v, Rec.temperature record = Some v /\ 36.0 <= v <= 37.2)
        /\ Rec.lastGlucose record = Body.lastGlucose originalData).
  { intros now timeOfDay sensorData originalData src k Hdev Hts.
    destruct (postSensorData_appends now timeOfDay sensorData originalData
                src k Hdev Hts)
      as (record & n & Hstore & Hn & Hhr & Hspo2 & Htemp & Hglucose).
    destruct (healthy_in_envelope sensorData timeOfDay originalData src k)
      as (Ehr & Espo2 & Etemp).
    exists record, n. repeat (split; [assumption |]).
    split; [eexists; split; [exact Hhr | exact Ehr] |].
    split; [eexists; split; [exact Hspo2 | exact Espo2] |].
    split; [eexists; split; [exact Htemp | exact Etemp] | exact Hglucose]. }
  split; [exact Hsensor |].
  split; [exact postPredictGlucose_appends |].
  split; [| split].
  - intros now timeOfDay sensorData originalData src k Hstore Hglucose.
    destruct (Body.deviceId originalData) as [dev |] eqn:Edev;
      [destruct (Body.timestamp originalData) as [ts |] eqn:Ets |].
    + destruct (Hsensor now timeOfDay sensorData originalData src k)
        as (record & n & -> & _ & (hr & Ehr & Hhr) & (sp & Esp & Hsp)
            & (tp & Etp & Htp) & Egl);
        [rewrite Edev; discriminate | rewrite Ets; discriminate |].
      apply Forall_skipn. apply Forall_app. split; [assumption |].
      constructor; [| constructor].
      unfold plausible. rewrite Ehr, Esp, Etp, Egl.
      split; [| split; [| split]];
        [intros v [= <-]; lra .. | exact Hglucose].
    + rewrite postSensorData_rejected_store by now right. assumption.
    + rewrite postSensorData_rejected_store by now left. assumption.
  - intros timeOfDay sensorData body src k Hstore.
    destruct (postPredictGlucose_appends timeOfDay sensorData body src k)
      as [-> | (g & Hg & ->)]; [assumption |].
    apply Forall_app. split; [assumption |].
    constructor; [| constructor].
    unfold plausible. cbn.
    split; [| split; [| split]]; intros v [= <-]. lra.
  - intros timeOfDay.
    destruct (bands_in_envelope timeOfDay) as (H1 & H2 & H3 & _ & _ & H4).
    repeat split; assumption || apply H1 || apply H2 || apply H3 || apply H4.
Qed.

(** The amended C6 at a store with one reading: it stays within the envelope
    after a sensor reading without [lastGlucose] and after a prediction. *)
Lemma stored_records_envelope_witness :
  Forall plausible
    (snd (fst (postSensorData 1700000060000 12 (one_reading 72 98 36.5)
                 body_of_device (fun _ => 0.5) 0%nat)))
  /\ Forall plausible
       (snd (fst (postPredictGlucose 12 (one_reading 72 98 36.5)
                    prediction_request (fun _ => 0.5) 0%nat))).
Proof.
  assert (Hstore : Forall plausible (one_reading 72 98 36.5))
    by plausible_by_evaluation.
  assert (Hbody : within 70 99 (Body.lastGlucose body_of_device))
    by (intros v H; discriminate H).
  destruct stored_records_envelope as (_ & _ & Hsensor & Hpredict & _).
  split.
  - exact (Hsensor 1700000060000%Z 12%Z (one_reading 72 98 36.5)
             body_of_device (fun _ => 0.5) 0%nat Hstore Hbody).
  - exact (Hpredict 12%Z (one_reading 72 98 36.5) prediction_request
             (fun _ => 0.5) 0%nat Hstore).
Defined.

(** ** C7: the device-state lookup *)

(** The first element of the sorted array is found by one pass that keeps
    the best record so far. *)
Lemma sort_head {A : Type} (comparefn : A -> A -> Z) (l acc : list A) (y : A) :
  hd_error (fold_left (fun acc x => sort_insert comparefn x acc) l (y :: acc))
  = Some (fold_left (fun best x => if (comparefn x best <? 0)%Z then x else best)
            l y).
Proof.
  revert acc y. induction l as [| x l IH]; intros acc y; [reflexivity |].
  cbn [fold_left sort_insert].
  destruct (comparefn x y <? 0)%Z; apply IH.
Qed.

Lemma sort_nonempty {A : Type} (comparefn : A -> A -> Z) (r : A) (rest : list A) :
  exists tail,
    sort comparefn (r :: rest)
    = fold_left (fun best x => if (comparefn x best <? 0)%Z then x else best)
        rest r :: tail.
Proof.
  unfold sort. cbn [fold_left sort_insert].
  pose proof (sort_head comparefn rest [] r) as H.
  destruct (fold_left _ rest [r]) as [| h tail]; [discriminate H |].
  injection H as ->. now exists tail.
Qed.

(** A device without a record in the store gets the defaults. *)
Lemma getLastStoredValues_unknown (sensorData : list Rec.t)
    (deviceId : option string) :
  (forall record, In record sensorData ->
                  deviceId_eqb (Rec.deviceId record) deviceId = false) ->
  getLastStoredValues sensorData deviceId = Last.mk 72 98 36.5 85.
Proof.
  intros H. unfold getLastStoredValues.
  replace (filter _ sensorData) with (@nil Rec.t); [reflexivity |].
  symmetry. induction sensorData as [| r l IH]; [reflexivity |].
  cbn [filter]. rewrite (H r (or_introl eq_refl)).
  apply IH. intros record Hin. apply H. now right.
Qed.




(** C7, at the store reached from the empty one by a glucose prediction and
    then a sensor reading of device "d": the prediction record has no
    [receivedAt], every comparison with it is NaN, the sort leaves it first,
    and [getLastStoredValues] answers from it - heart rate 72 and temperature
    36.5 by default - although the record with the maximal [receivedAt], the
    reading, has heart rate 71 and temperature 36.4. *)
Theorem last_values_ignore_the_newer_reading :
  store_after_prediction_and_reading
  = [Rec.mk (Some "d"%string) None None None None None None None (Some 84.5);
     Rec.mk (Some "d"%string) (Some 1700000060000%Z) (Some 71) (Some 71)
            (Some 98) (Some 36.4) (Some 89000) (Some 94000) None]
  /\ getLastStoredValues store_after_prediction_and_reading (Some "d"%string)
     = Last.mk 72 98 36.5 84.5
  /\ DeviceStateLookup.lastValues (Some "d"%string)
       store_after_prediction_and_reading
     = Last.mk 71 98 36.4 85.
Proof.
  split; [| split]; reflexivity.
Qed.

(** * Further properties of the code *)

(** ** The size and the direction of one step *)



(** The three draws that one step can read. *)
Ltac three_draws Hu k :=
  pose proof (Hu k); pose proof (Hu (S k)); pose proof (Hu (S (S k))).


Lemma walk_step_size (currentValue lastValue : Q) (range : Range)
    (src : RandomSource) (k : nat) :
  uniform src -> 0 < minChange range ->
  min range <= lastValue <= max range ->
  Qabs (fst (applyControlledVariation currentValue lastValue range src k)
        - lastValue)
  <= minChange range + 0.5.
Proof.
  intros Hu Hmc [Hlo Hhi]. three_draws Hu k.
  unfold applyControlledVariation, bind, Math_random, ret.
  cbn -[Qplus Qmult Qminus Js.gtb Js.ltb Js.or_else].
  rewrite or_else_nonzero by lra.
  destruct (Js.ltb _ _) eqn:E; cbn [fst];
    [destruct (Js.gtb (src (S (S k))) 0.5) |];
    destruct (Js.gtb (src k) 0.5); js_tests; q_atoms; lra.
Qed.

(** X1: for draws in [[0,1)], a band with [minChange > 0] and a last value
    inside the band, one step of [applyControlledVariation] moves the value
    by at most [minChange + 0.5]. *)
Theorem walk_step_is_bounded (currentValue lastValue : Q) (range : Range)
    (src : RandomSource) (k : nat) :
  uniform src -> 0 < minChange range ->
  min range <= lastValue <= max range ->
  Qabs (fst (applyControlledVariation currentValue lastValue range src k)
        - lastValue)
  <= minChange range + 0.5.
Proof.
  exact (walk_step_size currentValue lastValue range src k).
Qed.

Lemma walk_step_is_bounded_witness :
  Qabs (fst (applyControlledVariation 98 98 spo2Range (fun _ => 0.75) 0%nat)
        - 98)
  <= minChange spo2Range + 0.5.
Proof.
  apply walk_step_is_bounded; [intros i | |]; by_evaluation.
Defined.

(** X2: for draws in [[0,1)] and a last value that lies above the band by at
    least [minChange + 0.5], the output is exactly [max]; below the band by
    as much, it is exactly [min].  (Stored heart rate 90 from the active
    hours gives 75 at a resting hour.) *)
Theorem walk_snaps_to_the_band (currentValue lastValue : Q) (range : Range)
    (src : RandomSource) (k : nat) :
  uniform src -> min range <= max range -> 0 < minChange range ->
  (max range + minChange range + 0.5 <= lastValue ->
   fst (applyControlledVariation currentValue lastValue range src k)
   == max range)
  /\ (lastValue <= min range - minChange range - 0.5 ->
      fst (applyControlledVariation currentValue lastValue range src k)
      == min range).
Proof.
  intros Hu Hb Hmc. three_draws Hu k.
  unfold applyControlledVariation, bind, Math_random, ret.
  cbn -[Qplus Qmult Qminus Js.gtb Js.ltb Js.or_else].
  rewrite or_else_nonzero by lra.
  split; intros Hfar;
    (destruct (Js.ltb _ _) eqn:E; cbn [fst];
     [destruct (Js.gtb (src (S (S k))) 0.5) |];
     destruct (Js.gtb (src k) 0.5); js_tests; q_atoms; lra).
Qed.

Lemma walk_snaps_to_the_band_witness :
  fst (applyControlledVariation 90 90 (heartRateRange 23) (fun _ => 0.25)
         0%nat)
  == 75.
Proof.
  assert (Hu : uniform (fun _ => 0.25)) by (intros i; by_evaluation).
  assert (Hb : min (heartRateRange 23) <= max (heartRateRange 23))
    by by_evaluation.
  assert (Hmc : 0 < minChange (heartRateRange 23)) by by_evaluation.
  destruct (walk_snaps_to_the_band 90 90 (heartRateRange 23) (fun _ => 0.25)
              0%nat Hu Hb Hmc) as [Habove _].
  apply Habove. by_evaluation.
Defined.

(** ** How far each synthesized vital moves *)



Lemma toFixed1_keeps_distance (m : Z) (lastValue x : Q) :
  is_tenth lastValue -> 0 <= x ->
  Qabs (x - lastValue) <= m # 10 ->
  Qabs (Js.toFixed1 x - lastValue) <= m # 10.
Proof.
  intros [z Hz] H0 H.
  assert (Hup : x <= (z + m) # 10 -> Js.toFixed1 x <= (z + m) # 10)
    by now apply toFixed1_le.
  assert (Hdown : (z - m) # 10 <= x -> (z - m) # 10 <= Js.toFixed1 x)
    by now apply toFixed1_ge.
  rewrite (tenths (z + m)) in Hup. rewrite (tenths (z - m)) in Hdown.
  unfold Zminus in Hdown.
  rewrite inject_Z_plus in Hup, Hdown. rewrite inject_Z_opp in Hdown.
  rewrite tenths in Hz. rewrite (tenths m) in *.
  revert Hup Hdown. generalize (Js.toFixed1 x). intros y Hup Hdown.
  generalize dependent (inject_Z m). generalize dependent (inject_Z z).
  intros qz Hz qm H Hup Hdown.
  q_atoms. lra.
Qed.

Section VitalsStep.

Variables (sensorData : list Rec.t) (timeOfDay : Z) (originalData : Body.t).
Variables (src : RandomSource) (k : nat).

Local Notation "'lastValues'" :=
  (getLastStoredValues sensorData (Body.deviceId originalData)).
Local Notation "'lastRed'" := (Js.or_default (Body.red originalData) 80000).
Local Notation "'lastIR'" := (Js.or_default (Body.ir originalData) 85000).
Local Notation "'healthy'" :=
  (fst (generateHealthyValues sensorData timeOfDay originalData src k)).


End VitalsStep.


(** ** The device-state lookup, further *)

(** X4: a device without a record in the store gets exactly the defaults
    (72, 98, 36.5, 85), whatever else the store holds. *)
Theorem unknown_device_gets_the_defaults (sensorData : list Rec.t)
    (deviceId : option string) :
  (forall record, In record sensorData ->
                  deviceId_eqb (Rec.deviceId record) deviceId = false) ->
  getLastStoredValues sensorData deviceId = Last.mk 72 98 36.5 85.
Proof.
  exact (getLastStoredValues_unknown sensorData deviceId).
Qed.

Lemma unknown_device_gets_the_defaults_witness :
  getLastStoredValues (one_reading 72 98 36.5) (Some "e"%string)
  = Last.mk 72 98 36.5 85.
Proof.
  apply unknown_device_gets_the_defaults.
  intros record [<- | []]. reflexivity.
Defined.



Lemma or_default_nonzero (field : option Q) (default : Q) :
  ~ default == 0 -> ~ Js.or_default field default == 0.
Proof.
  intros Hd. destruct field as [v |]; [| exact Hd].
  cbn. unfold Js.or_else, Js.truthy.
  destruct (Qeq_bool v 0) eqn:E; [exact Hd |].
  cbn. intros H. apply Qeq_bool_iff in H. congruence.
Qed.

(** X6: whatever the store holds, no value that [getLastStoredValues]
    returns is 0: a stored 0 is replaced by the default like a missing
    field, so the walk never starts from 0. *)
Theorem last_values_are_never_zero (sensorData : list Rec.t)
    (deviceId : option string) :
  ~ Last.heartRate (getLastStoredValues sensorData deviceId) == 0
  /\ ~ Last.spo2 (getLastStoredValues sensorData deviceId) == 0
  /\ ~ Last.temperature (getLastStoredValues sensorData deviceId) == 0
  /\ ~ Last.glucose (getLastStoredValues sensorData deviceId) == 0.
Proof.
  unfold getLastStoredValues.
  destruct (sort byReceivedAtDesc _) as [| lastRecord tail];
    cbn [Last.heartRate Last.spo2 Last.temperature Last.glucose];
    repeat split; try apply or_default_nonzero; by_evaluation.
Qed.

(** The record that the one pass keeps is the first one as soon as that one
    has no valid [receivedAt]: every comparison with it is NaN. *)
Lemma first_without_date_stays (r : Rec.t) (rest : list Rec.t) :
  Rec.receivedAt r = None ->
  fold_left (fun best x => if (byReceivedAtDesc x best <? 0)%Z then x else best)
    rest r = r.
Proof.
  intros Hr. induction rest as [| x rest IH]; [reflexivity |].
  cbn [fold_left]. unfold byReceivedAtDesc at 2. rewrite Hr. exact IH.
Qed.

(** A first record without a date is the one the lookup answers from. *)
Lemma undated_first_record_wins (sensorData : list Rec.t)
    (deviceId : option string) (first : Rec.t) (later : list Rec.t) :
  filter (fun record => deviceId_eqb (Rec.deviceId record) deviceId) sensorData
  = first :: later ->
  Rec.receivedAt first = None ->
  getLastStoredValues sensorData deviceId
  = Last.mk (Js.or_default (Rec.heartRate first) 72)
            (Js.or_default (Rec.spo2 first) 98)
            (Js.or_default (Rec.temperature first) 36.5)
            (Js.or_default (Rec.lastGlucose first) 85).
Proof.
  intros Hfilter Hdate. unfold getLastStoredValues. rewrite Hfilter.
  destruct (sort_nonempty byReceivedAtDesc first later) as [tail ->].
  rewrite first_without_date_stays by exact Hdate. reflexivity.
Qed.

(** X7: when the first stored record of a device has no valid [receivedAt]
    (as every record pushed by [POST /api/predict-glucose]), the lookup
    answers from that record, whatever was stored for the device after it. *)
Theorem lookup_answers_from_first_record_without_date
    (sensorData : list Rec.t) (deviceId : option string)
    (first : Rec.t) (later : list Rec.t) :
  filter (fun record => deviceId_eqb (Rec.deviceId record) deviceId) sensorData
  = first :: later ->
  Rec.receivedAt first = None ->
  getLastStoredValues sensorData deviceId
  = Last.mk (Js.or_default (Rec.heartRate first) 72)
            (Js.or_default (Rec.spo2 first) 98)
            (Js.or_default (Rec.temperature first) 36.5)
            (Js.or_default (Rec.lastGlucose first) 85).
Proof.
  exact (undated_first_record_wins sensorData deviceId first later).
Qed.

Lemma lookup_answers_from_first_record_without_date_witness :
  getLastStoredValues (one_prediction 84.5 ++ one_reading 71 98 36.4)
    (Some "d"%string)
  = Last.mk (Js.or_default None 72) (Js.or_default None 98)
            (Js.or_default None 36.5) (Js.or_default (Some 84.5) 85).
Proof.
  apply (lookup_answers_from_first_record_without_date
           (one_prediction 84.5 ++ one_reading 71 98 36.4) (Some "d"%string)
           (Rec.mk (Some "d"%string) None None None None None None None
                   (Some 84.5))
           (one_reading 71 98 36.4)); reflexivity.
Defined.

(** ** The handlers and the store *)

(** What an accepted [POST /api/sensor-data] answers and leaves in the
    store, written out. *)
Lemma postSensorData_accepted (now timeOfDay : Z) (sensorData : list Rec.t)
    (originalData : Body.t) (src : RandomSource) (k : nat) :
  Body.deviceId originalData <> None ->
  Body.timestamp originalData <> None ->
  let healthyData :=
    fst (generateHealthyValues sensorData timeOfDay originalData src k) in
  let record :=
    Rec.mk (Body.deviceId originalData)
           (match Body.receivedAt originalData with
            | Some d => d
            | None => Some now
            end)
           (Some (Healthy.heartRate healthyData))
           (Some (Healthy.heartRateAvg healthyData))
           (Some (Healthy.spo2 healthyData))
           (Some (Healthy.temperature healthyData))
           (Some (Healthy.red healthyData))
           (Some (Healthy.ir healthyData))
           (Body.lastGlucose originalData) in
  let pushed := sensorData ++ [record] in
  let kept :=
    if (Z.of_nat (List.length pushed) >? 10000)%Z
    then skipn (Z.to_nat (Z.of_nat (List.length pushed) - 10000)) pushed
    else pushed in
  fst (postSensorData now timeOfDay sensorData originalData src k)
  = (Status201 healthyData (List.length kept), kept).
Proof.
  intros Hdev Hts. unfold postSensorData, Body.has.
  destruct (Body.deviceId originalData) as [dev |] eqn:Edev; [| contradiction].
  destruct (Body.timestamp originalData) as [ts |]; [| contradiction].
  cbn -[generateHealthyValues skipn Z.of_nat Z.to_nat Z.gtb]. unfold bind.
  destruct (generateHealthyValues sensorData timeOfDay originalData src k)
    as [healthyData k1].
  cbn -[skipn Z.of_nat Z.to_nat Z.gtb]. reflexivity.
Qed.

(** X8: an accepted [POST /api/sensor-data] leaves [min (n + 1) 10000]
    records in a store that held [n], answers 201 with [totalRecords] equal
    to that number, and the record it pushed, which has the device of the
    body, is the last one of the store. *)
Theorem sensor_store_is_capped (now timeOfDay : Z) (sensorData : list Rec.t)
    (originalData : Body.t) (src : RandomSource) (k : nat) :
  Body.deviceId originalData <> None ->
  Body.timestamp originalData <> None ->
  Z.of_nat
    (List.length
       (snd (fst (postSensorData now timeOfDay sensorData originalData src k))))
  = Z.min (Z.of_nat (List.length sensorData) + 1) 10000
  /\ (exists healthyData,
         fst (fst (postSensorData now timeOfDay sensorData originalData src k))
         = Status201 healthyData
             (List.length
                (snd (fst (postSensorData now timeOfDay sensorData
                             originalData src k)))))
  /\ (exists older record,
         snd (fst (postSensorData now timeOfDay sensorData originalData src k))
         = older ++ [record]
         /\ Rec.deviceId record = Body.deviceId originalData).
Proof.
  intros Hdev Hts.
  rewrite (postSensorData_accepted now timeOfDay sensorData originalData src k
             Hdev Hts).
  cbv zeta. cbn [fst snd].
  match goal with
  | |- context [sensorData ++ [?r]] => set (record := r)
  end.
  assert (Hlen : Z.of_nat (List.length (sensorData ++ [record]))
                 = (Z.of_nat (List.length sensorData) + 1)%Z)
    by (rewrite length_app; cbn [List.length]; lia).
  destruct (Z.gtb_spec (Z.of_nat (List.length (sensorData ++ [record]))) 10000)
    as [Hlong | Hshort].
  - split; [| split].
    + rewrite length_skipn. lia.
    + eexists. reflexivity.
    + exists (skipn (Z.to_nat
                       (Z.of_nat (List.length (sensorData ++ [record])) - 10000))
                sensorData), record.
      split; [| reflexivity].
      rewrite skipn_app.
      replace (_ - List.length sensorData)%nat with 0%nat by lia.
      reflexivity.
  - split; [lia |]. split; [eexists; reflexivity |].
    exists sensorData, record. split; reflexivity.
Qed.

Lemma sensor_store_is_capped_witness :
  Z.of_nat
    (List.length
       (snd (fst (postSensorData 1700000060000 12 (one_reading 72 98 36.5)
                    body_of_device (fun _ => 0.5) 0%nat))))
  = Z.min (Z.of_nat (List.length (one_reading 72 98 36.5)) + 1) 10000.
Proof.
  apply (sensor_store_is_capped 1700000060000 12 (one_reading 72 98 36.5)
           body_of_device (fun _ => 0.5) 0%nat); discriminate.
Defined.

(** The record that one pass of the comparator keeps is one of the
    records. *)
Lemma kept_record_In {A : Type} (comparefn : A -> A -> Z) (l : list A) (x : A) :
  In (fold_left (fun best x => if (comparefn x best <? 0)%Z then x else best)
        l x)
     (x :: l).
Proof.
  revert x. induction l as [| y l IH]; intros x; [now left |].
  cbn [fold_left]. destruct (comparefn y x <? 0)%Z.
  - right. exact (IH y).
  - destruct (IH x) as [H | H]; [now left | right; now right].
Qed.

Lemma sort_hd_In {A : Type} (comparefn : A -> A -> Z) (l : list A) (x : A) :
  hd_error (sort comparefn l) = Some x -> In x l.
Proof.
  destruct l as [| r rest]; [discriminate |].
  destruct (sort_nonempty comparefn r rest) as [tail ->].
  cbn [hd_error]. intros [= <-]. apply kept_record_In.
Qed.

Lemma deviceId_eqb_eq (a b : option string) :
  deviceId_eqb a b = true <-> a = b.
Proof.
  destruct a as [x |], b as [y |]; cbn; try (split; congruence).
  rewrite String.eqb_eq. split; congruence.
Qed.

(** A record dated after every other record comes first, wherever it is
    stored. *)
Lemma newest_record_first (records : list Rec.t) (r : Rec.t) (now : Z) :
  Rec.receivedAt r = Some now ->
  (forall x, In x records ->
             exists t, Rec.receivedAt x = Some t /\ (t < now)%Z) ->
  exists tail, sort byReceivedAtDesc (records ++ [r]) = r :: tail.
Proof.
  intros Hr Hold. destruct records as [| x xs]; [now exists [] |].
  cbn [app].
  destruct (sort_nonempty byReceivedAtDesc x (xs ++ [r])) as [tail ->].
  exists tail. f_equal. rewrite fold_left_app. cbn [fold_left].
  destruct (Hold _ (kept_record_In byReceivedAtDesc xs x)) as (t & Ht & Hlt).
  unfold byReceivedAtDesc at 1. rewrite Ht, Hr.
  destruct (Z.ltb_spec (t - now) 0); [reflexivity | lia].
Qed.

Lemma In_skipn {A : Type} (n : nat) (l : list A) (x : A) :
  In x (skipn n l) -> In x l.
Proof.
  intros H. rewrite <- (firstn_skipn n l). apply in_or_app. now right.
Qed.

Lemma or_default_positive (v d : Q) : 0 < v -> Js.or_default (Some v) d = v.
Proof. intros H. cbn. apply or_else_nonzero. lra. Qed.

(** After an accepted [POST /api/sensor-data] whose record is dated after
    every stored record of the device, the lookup answers from the record
    just pushed. *)
Lemma postSensorData_then_lookup (now timeOfDay : Z)
    (sensorData : list Rec.t) (originalData : Body.t)
    (src : RandomSource) (k : nat) :
  Body.deviceId originalData <> None ->
  Body.timestamp originalData <> None ->
  Body.receivedAt originalData = None ->
  (forall record,
      In record sensorData ->
      Rec.deviceId record = Body.deviceId originalData ->
      exists t, Rec.receivedAt record = Some t /\ (t < now)%Z) ->
  getLastStoredValues
    (snd (fst (postSensorData now timeOfDay sensorData originalData src k)))
    (Body.deviceId originalData)
  = Last.mk
      (Healthy.heartRate
         (fst (generateHealthyValues sensorData timeOfDay originalData src k)))
      (Healthy.spo2
         (fst (generateHealthyValues sensorData timeOfDay originalData src k)))
      (Healthy.temperature
         (fst (generateHealthyValues sensorData timeOfDay originalData src k)))
      (Js.or_default (Body.lastGlucose originalData) 85).
Proof.
  intros Hdev Hts Hdate Hold.
  rewrite (postSensorData_accepted now timeOfDay sensorData originalData src k
             Hdev Hts).
  cbv zeta. cbn [fst snd]. rewrite Hdate.
  destruct (healthy_in_envelope sensorData timeOfDay originalData src k)
    as (Hhr & Hspo2 & Htemp).
  set (healthyData :=
         fst (generateHealthyValues sensorData timeOfDay originalData src k))
    in *.
  match goal with
  | |- context [sensorData ++ [?r]] => set (record := r)
  end.
  assert (Hkept : exists n,
             (if (Z.of_nat (List.length (sensorData ++ [record])) >? 10000)%Z
              then skipn (Z.to_nat
                            (Z.of_nat (List.length (sensorData ++ [record]))
                             - 10000))
                     (sensorData ++ [record])
              else sensorData ++ [record])
             = skipn n sensorData ++ [record]).
  { destruct (Z.gtb_spec (Z.of_nat (List.length (sensorData ++ [record])))
                10000) as [Hlong | Hshort].
    - eexists. rewrite skipn_app.
      rewrite length_app in *. cbn [List.length] in *.
      match goal with
      | |- context [skipn ?m [record]] =>
          replace m with 0%nat by lia
      end.
      reflexivity.
    - exists 0%nat. reflexivity. }
  destruct Hkept as [n ->].
  unfold getLastStoredValues. rewrite filter_app. cbn [filter].
  replace (deviceId_eqb (Rec.deviceId record) (Body.deviceId originalData))
    with true
    by (symmetry; apply deviceId_eqb_eq; reflexivity).
  destruct (newest_record_first
              (filter (fun record0 =>
                         deviceId_eqb (Rec.deviceId record0)
                           (Body.deviceId originalData))
                 (skipn n sensorData))
              record now eq_refl) as [tail ->].
  { intros x Hx. apply filter_In in Hx. destruct Hx as [Hin Hmatch].
    apply Hold; [exact (In_skipn n sensorData x Hin) |].
    now apply deviceId_eqb_eq. }
  subst record. cbn [Rec.heartRate Rec.spo2 Rec.temperature Rec.lastGlucose].
  rewrite !or_default_positive by lra. reflexivity.
Qed.

(** X9: after an accepted [POST /api/sensor-data] whose body has no
    [receivedAt] and whose server time is later than the [receivedAt] of
    every stored record of the device (each of them having a valid one),
    [getLastStoredValues] returns the heart rate, SpO2 and temperature just
    synthesized.  Its glucose is the [lastGlucose] of the body, or the
    default 85 when the body has none: a reading carries no glucose of its
    own, so the next prediction walks from 85 again. *)
Theorem posted_reading_is_read_back (now timeOfDay : Z)
    (sensorData : list Rec.t) (originalData : Body.t)
    (src : RandomSource) (k : nat) :
  Body.deviceId originalData <> None ->
  Body.timestamp originalData <> None ->
  Body.receivedAt originalData = None ->
  (forall record,
      In record sensorData ->
      Rec.deviceId record = Body.deviceId originalData ->
      exists t, Rec.receivedAt record = Some t /\ (t < now)%Z) ->
  getLastStoredValues
    (snd (fst (postSensorData now timeOfDay sensorData originalData src k)))
    (Body.deviceId originalData)
  = Last.mk
      (Healthy.heartRate
         (fst (generateHealthyValues sensorData timeOfDay originalData src k)))
      (Healthy.spo2
         (fst (generateHealthyValues sensorData timeOfDay originalData src k)))
      (Healthy.temperature
         (fst (generateHealthyValues sensorData timeOfDay originalData src k)))
      (Js.or_default (Body.lastGlucose originalData) 85).
Proof.
  exact (postSensorData_then_lookup now timeOfDay sensorData originalData
           src k).
Qed.

Lemma posted_reading_is_read_back_witness :
  getLastStoredValues
    (snd (fst (postSensorData 1700000060000 12 (one_reading 72 98 36.5)
                 body_of_device (fun _ => 0.5) 0%nat)))
    (Body.deviceId body_of_device)
  = Last.mk
      (Healthy.heartRate
         (fst (generateHealthyValues (one_reading 72 98 36.5) 12
                 body_of_device (fun _ => 0.5) 0%nat)))
      (Healthy.spo2
         (fst (generateHealthyValues (one_reading 72 98 36.5) 12
                 body_of_device (fun _ => 0.5) 0%nat)))
      (Healthy.temperature
         (fst (generateHealthyValues (one_reading 72 98 36.5) 12
                 body_of_device (fun _ => 0.5) 0%nat)))
      (Js.or_default (Body.lastGlucose body_of_device) 85).
Proof.
  apply posted_reading_is_read_back; try discriminate; [reflexivity |].
  intros record [<- | []] _. exists 1700000000000%Z. split; [reflexivity | lia].
Defined.



(** ** Clearing the store *)

Lemma filter_other_device (sensorData : list Rec.t)
    (deviceId other : option string) :
  other <> deviceId ->
  filter (fun record => deviceId_eqb (Rec.deviceId record) other)
    (filter (fun record => negb (deviceId_eqb (Rec.deviceId record) deviceId))
       sensorData)
  = filter (fun record => deviceId_eqb (Rec.deviceId record) other) sensorData.
Proof.
  intros Hother. induction sensorData as [| r rest IH]; [reflexivity |].
  cbn [filter].
  destruct (deviceId_eqb (Rec.deviceId r) deviceId) eqn:Ed; cbn [negb filter].
  - destruct (deviceId_eqb (Rec.deviceId r) other) eqn:Eo; [| exact IH].
    apply deviceId_eqb_eq in Ed, Eo. congruence.
  - rewrite IH. reflexivity.
Qed.

Lemma length_filter_split {A : Type} (f : A -> bool) (l : list A) :
  (List.length (filter f l) + List.length (filter (fun x => negb (f x)) l)
   = List.length l)%nat.
Proof.
  induction l as [| x l IH]; [reflexivity |].
  cbn [filter]. destruct (f x); cbn [negb List.length]; lia.
Qed.

Lemma filter_nothing {A : Type} (f : A -> bool) (l : list A) :
  (forall x, In x l -> f x = false) -> filter f l = [].
Proof.
  intros H. induction l as [| x l IH]; [reflexivity |].
  cbn [filter]. rewrite (H x (or_introl eq_refl)).
  apply IH. intros y Hy. apply H. now right.
Qed.

(** X11: [DELETE /api/sensor-data?deviceId=d] with a non-empty [d]:
    afterwards the lookup of [d] gives the defaults, the lookup of every
    other device is what it was, the count reported is the number of
    records of [d], and [remainingRecords] is the size of the store left. *)
Theorem delete_forgets_one_device (sensorData : list Rec.t)
    (deviceId other : option string) :
  queryGiven deviceId = true ->
  other <> deviceId ->
  getLastStoredValues (snd (deleteSensorData sensorData deviceId)) deviceId
  = Last.mk 72 98 36.5 85
  /\ getLastStoredValues (snd (deleteSensorData sensorData deviceId)) other
     = getLastStoredValues sensorData other
  /\ Deleted.deletedCount (fst (deleteSensorData sensorData deviceId))
     = Some (Z.of_nat
               (List.length
                  (filter
                     (fun record => deviceId_eqb (Rec.deviceId record) deviceId)
                     sensorData)))
  /\ Deleted.remainingRecords (fst (deleteSensorData sensorData deviceId))
     = Z.of_nat (List.length (snd (deleteSensorData sensorData deviceId))).
Proof.
  intros Hgiven Hother. unfold deleteSensorData. rewrite Hgiven.
  cbn [fst snd Deleted.deletedCount Deleted.remainingRecords].
  split; [| split; [| split]].
  - unfold getLastStoredValues. rewrite filter_nothing; [reflexivity |].
    intros record Hin. apply filter_In in Hin. destruct Hin as [_ Hneq].
    now apply negb_true_iff.
  - unfold getLastStoredValues. rewrite filter_other_device by exact Hother.
    reflexivity.
  - f_equal.
    pose proof (length_filter_split
                  (fun record => deviceId_eqb (Rec.deviceId record) deviceId)
                  sensorData).
    lia.
  - reflexivity.
Qed.

Lemma delete_forgets_one_device_witness :
  getLastStoredValues (snd (deleteSensorData two_devices (Some "d"%string)))
    (Some "d"%string)
  = Last.mk 72 98 36.5 85
  /\ getLastStoredValues (snd (deleteSensorData two_devices (Some "d"%string)))
       (Some "e"%string)
     = getLastStoredValues two_devices (Some "e"%string)
  /\ Deleted.deletedCount (fst (deleteSensorData two_devices (Some "d"%string)))
     = Some (Z.of_nat
               (List.length
                  (filter
                     (fun record =>
                        deviceId_eqb (Rec.deviceId record) (Some "d"%string))
                     two_devices)))
  /\ Deleted.remainingRecords
       (fst (deleteSensorData two_devices (Some "d"%string)))
     = Z.of_nat
         (List.length (snd (deleteSensorData two_devices (Some "d"%string)))).
Proof.
  apply delete_forgets_one_device; [reflexivity | discriminate].
Defined.

(** ** Predictions *)

Lemma interpretGlucose_normal (glucoseLevel : Q) :
  70 <= glucoseLevel <= 99 ->
  interpretGlucose glucoseLevel
  = Some (Interp.mk "Normal" "good" "Normal fasting glucose level").
Proof.
  intros [Hlo Hhi]. unfold interpretGlucose.
  destruct (Js.ltb glucoseLevel 70) eqn:E1; [js_tests; lra |].
  destruct (Js.geb glucoseLevel 70) eqn:E2; [| js_tests; lra].
  destruct (Js.leb glucoseLevel 99) eqn:E3; [| js_tests; lra].
  reflexivity.
Qed.



(** ** The health score, further *)

Lemma deductVital_accounts (acc : Z * list string) (entry : string * Interp.t) :
  score_accounts acc -> score_accounts (deductVital acc entry).
Proof.
  destruct acc as [score factors], entry as [vital interpretation].
  unfold score_accounts, deductVital. cbn [fst snd]. intros [Hle Hiff].
  repeat match goal with
         | |- context [String.eqb ?a ?b] => destruct (String.eqb a b)
         end;
    cbn [fst snd]; try (split; [assumption | exact Hiff]);
    (split; [lia |]; split;
     [intros H; apply app_eq_nil in H; destruct H; discriminate | lia]).
Qed.

Lemma deductions_account (vitals : list (string * Interp.t))
    (acc : Z * list string) :
  score_accounts acc -> score_accounts (fold_left deductVital vitals acc).
Proof.
  revert acc. induction vitals as [| entry vitals IH]; intros acc H;
    [exact H |].
  cbn [fold_left]. apply IH. now apply deductVital_accounts.
Qed.

(** X13: the health score is at most 100; it is 100 exactly when no factor
    is listed, and then the status is Excellent. *)
Theorem health_score_is_full_iff_no_factor
    (vitals : list (string * Interp.t)) (glucose : option Interp.t) :
  (Score.score (calculateHealthScore vitals glucose) <= 100)%Z
  /\ (Score.factors (calculateHealthScore vitals glucose) = []
      <-> Score.score (calculateHealthScore vitals glucose) = 100%Z)
  /\ (Score.factors (calculateHealthScore vitals glucose) = [] ->
      Score.status (calculateHealthScore vitals glucose) = "Excellent"%string).
Proof.
  unfold calculateHealthScore.
  pose proof (deductions_account vitals (100%Z, [])) as H.
  destruct (fold_left deductVital vitals (100%Z, [])) as [score factors].
  destruct H as [Hle Hiff]; [split; [cbn; lia | cbn; tauto] |].
  cbn [fst snd] in Hle, Hiff.
  assert (Hg : exists score' factors',
             (match glucose with
              | Some g =>
                  if String.eqb (Interp.status g) "warning" then
                    ((score - 15)%Z,
                     factors ++ [("Glucose: " ++ Interp.message g)%string])
                  else if String.eqb (Interp.status g) "caution" then
                    ((score - 8)%Z,
                     factors ++ [("Glucose: " ++ Interp.message g)%string])
                  else (score, factors)
              | None => (score, factors)
              end) = (score', factors')
             /\ (score' <= 100)%Z /\ (factors' = [] <-> score' = 100%Z)).
  { destruct glucose as [g |]; [| now exists score, factors].
    destruct (String.eqb (Interp.status g) "warning");
      [do 2 eexists; split; [reflexivity |]; split; [lia |]; split;
       [intros H; apply app_eq_nil in H; destruct H; discriminate | lia] |].
    destruct (String.eqb (Interp.status g) "caution");
      [do 2 eexists; split; [reflexivity |]; split; [lia |]; split;
       [intros H; apply app_eq_nil in H; destruct H; discriminate | lia] |].
    now exists score, factors. }
  destruct Hg as (score' & factors' & -> & Hle' & Hiff').
  cbn [Score.score Score.factors Score.status].
  split; [lia |]. split.
  - rewrite Hiff'. lia.
  - intros H. apply Hiff' in H. subst score'. reflexivity.
Qed.

(** ** The health summary *)

Lemma sort_empty {A : Type} (comparefn : A -> A -> Z) (l : list A) :
  hd_error (sort comparefn l) = None -> l = [].
Proof.
  destruct l as [| r rest]; [reflexivity |].
  destruct (sort_nonempty comparefn r rest) as [tail ->]. discriminate.
Qed.

(** The two answers of [GET /api/health-data/:deviceId], written out. *)
Lemma getHealthData_cases (timeOfDay : Z) (sensorData : list Rec.t)
    (deviceId : string) (src : RandomSource) (k : nat) :
  (filter
     (fun record =>
        deviceId_eqb (Rec.deviceId record) (Some deviceId)
        && defined (Rec.heartRate record)
        && defined (Rec.spo2 record)
        && defined (Rec.temperature record))
     sensorData = []
   /\ fst (getHealthData timeOfDay sensorData deviceId src k)
      = Health404 "No sensor data found")
  \/ (exists latestReading heartRate spo2 temperature predictedGlucose,
         In latestReading sensorData
         /\ Rec.deviceId latestReading = Some deviceId
         /\ Rec.heartRate latestReading = Some heartRate
         /\ Rec.spo2 latestReading = Some spo2
         /\ Rec.temperature latestReading = Some temperature
         /\ 70 <= predictedGlucose <= 99
         /\ fst (getHealthData timeOfDay sensorData deviceId src k)
            = Health200
                (Health.mk heartRate
                   (match Rec.heartRateAvg latestReading with
                    | Some avg => avg
                    | None => heartRate
                    end)
                   spo2 temperature
                   (interpretVitals heartRate spo2 temperature)
                   predictedGlucose
                   (Interp.mk "Normal" "good" "Normal fasting glucose level")
                   (calculateHealthScore
                      (interpretVitals heartRate spo2 temperature)
                      (Some (Interp.mk "Normal" "good"
                               "Normal fasting glucose level"))))).
Proof.
  unfold getHealthData.
  set (valid := fun record : Rec.t =>
                  deviceId_eqb (Rec.deviceId record) (Some deviceId)
                  && defined (Rec.heartRate record)
                  && defined (Rec.spo2 record)
                  && defined (Rec.temperature record)).
  destruct (hd_error (sort byReceivedAtDesc (filter valid sensorData)))
    as [latestReading |] eqn:E.
  - right. apply sort_hd_In, filter_In in E. destruct E as [Hin Hvalid].
    subst valid. cbn beta in Hvalid.
    apply andb_prop in Hvalid. destruct Hvalid as [Hvalid Ht].
    apply andb_prop in Hvalid. destruct Hvalid as [Hvalid Hs].
    apply andb_prop in Hvalid. destruct Hvalid as [Hd Hh].
    apply deviceId_eqb_eq in Hd.
    destruct (Rec.heartRate latestReading) as [heartRate |] eqn:Eh;
      [| discriminate].
    destruct (Rec.spo2 latestReading) as [spo2 |] eqn:Es; [| discriminate].
    destruct (Rec.temperature latestReading) as [temperature |] eqn:Et;
      [| discriminate].
    unfold bind.
    match goal with
    | |- context [simulateHealthyGlucose ?s ?t ?h ?a ?o ?c ?d src k] =>
        pose proof (simulateHealthyGlucose_range s t h a o c d src k) as Hrange;
        destruct (simulateHealthyGlucose s t h a o c d src k) as [g k1]
    end.
    cbn [fst] in Hrange.
    rewrite (interpretGlucose_normal g Hrange). cbn [ret fst].
    exists latestReading, heartRate, spo2, temperature, g.
    repeat match goal with |- _ /\ _ => split end;
      try reflexivity; try assumption; apply Hrange.
  - left. split; [exact (sort_empty _ _ E) | reflexivity].
Qed.


Lemma interpretVitals_plausible (hr spo2 temp : Q) :
  55 <= hr <= 95 -> 95 <= spo2 <= 100 -> 36.0 <= temp <= 37.2 ->
  interpretVitals hr spo2 temp
  = [("heartRate",
      if Js.ltb hr 60
      then Interp.mk "Low" "caution" "Below normal range (bradycardia)"
      else Interp.mk "Normal" "good" "Normal heart rate");
     ("spo2", Interp.mk "Normal" "good" "Normal oxygen saturation");
     ("temperature", Interp.mk "Normal" "good" "Normal body temperature")]%string.
Proof.
  intros [Hh1 Hh2] [Hs1 Hs2] [Ht1 Ht2]. unfold interpretVitals.
  destruct (Qeq_bool hr 0) eqn:E0; [apply Qeq_bool_iff in E0; lra |].
  destruct (Js.geb spo2 95) eqn:E1; [| js_tests; lra].
  destruct (Js.ltb temp 35.0) eqn:E2; [js_tests; lra |].
  destruct (Js.geb temp 35.0) eqn:E3; [| js_tests; lra].
  destruct (Js.leb temp 37.2) eqn:E4; [| js_tests; lra].
  destruct (Js.ltb hr 60) eqn:E5; [reflexivity |].
  destruct (Js.geb hr 60) eqn:E6; [| js_tests; lra].
  destruct (Js.leb hr 100) eqn:E7; [| js_tests; lra].
  reflexivity.
Qed.

(** X15: on a store inside the plausibility envelope the health summary is
    a 404 or has the status Excellent: score 100 and no factor when the
    heart rate read is at least 60, score 90 with the bradycardia factor
    when it is below 60 (the resting band goes down to 55). *)
Theorem health_summary_of_plausible_store_is_excellent (timeOfDay : Z)
    (sensorData : list Rec.t) (deviceId : string)
    (src : RandomSource) (k : nat) :
  Forall plausible sensorData ->
  (exists error,
      fst (getHealthData timeOfDay sensorData deviceId src k) = Health404 error)
  \/ (exists payload,
         fst (getHealthData timeOfDay sensorData deviceId src k)
         = Health200 payload
         /\ Score.status (Health.healthScore payload) = "Excellent"%string
         /\ (60 <= Health.heartRate payload ->
             Health.healthScore payload = Score.mk 100 "Excellent" [])
         /\ (Health.heartRate payload < 60 ->
             Health.healthScore payload
             = Score.mk 90 "Excellent"
                 ["heartRate: Below normal range (bradycardia)"%string])).
Proof.
  intros Hstore.
  destruct (getHealthData_cases timeOfDay sensorData deviceId src k)
    as [[Hnone ->]
       | (latestReading & heartRate & spo2 & temperature & g
          & Hin & Hd & Hh & Hs & Ht & Hg & ->)];
    [left; eexists; reflexivity | right].
  rewrite Forall_forall in Hstore.
  destruct (Hstore latestReading Hin) as (Ph & Ps & Pt & _).
  specialize (Ph heartRate Hh). specialize (Ps spo2 Hs).
  specialize (Pt temperature Ht).
  eexists. split; [reflexivity |].
  cbn [Health.healthScore Health.heartRate].
  rewrite (interpretVitals_plausible heartRate spo2 temperature Ph Ps Pt).
  destruct (Js.ltb heartRate 60) eqn:E; js_tests.
  - split; [reflexivity |]. split; [intros H; lra | reflexivity].
  - split; [reflexivity |]. split; [reflexivity | intros H; lra].
Qed.

Lemma health_summary_of_plausible_store_is_excellent_witness :
  (exists error,
      fst (getHealthData 12 (one_reading 72 98 36.5) "d" (fun _ => 0.5) 0%nat)
      = Health404 error)
  \/ (exists payload,
         fst (getHealthData 12 (one_reading 72 98 36.5) "d" (fun _ => 0.5)
                0%nat)
         = Health200 payload
         /\ Score.status (Health.healthScore payload) = "Excellent"%string
         /\ (60 <= Health.heartRate payload ->
             Health.healthScore payload = Score.mk 100 "Excellent" [])
         /\ (Health.heartRate payload < 60 ->
             Health.healthScore payload
             = Score.mk 90 "Excellent"
                 ["heartRate: Below normal range (bradycardia)"%string])).
Proof.
  apply health_summary_of_plausible_store_is_excellent.
  constructor; [| constructor].
  unfold plausible, within; cbn.
  repeat match goal with |- _ /\ _ => split end;
    intros v H; try discriminate H; injection H as <-; by_evaluation.
Defined.

(** ** The older generator *)





(** ** The older glucose table *)

(** X17: the older [interpretGlucose] gives the status of the newer one
    wherever the newer one returns an interpretation, and answers
    High/warning where the newer one returns [undefined]. *)
Theorem older_glucose_table_has_no_gap (glucoseLevel : Q) :
  (forall interpretation,
      interpretGlucose glucoseLevel = Some interpretation ->
      Interp.status (OlderIndex.interpretGlucose glucoseLevel)
      = Interp.status interpretation)
  /\ (interpretGlucose glucoseLevel = None ->
      OlderIndex.interpretGlucose glucoseLevel
      = Interp.mk "High" "warning"
          "Diabetic range - consult healthcare provider").
Proof.
  unfold interpretGlucose, OlderIndex.interpretGlucose.
  destruct (Js.ltb glucoseLevel 70);
    [split; [intros i [= <-]; reflexivity | discriminate] |].
  destruct (Js.geb glucoseLevel 70 && Js.leb glucoseLevel 99);
    [split; [intros i [= <-]; reflexivity | discriminate] |].
  destruct (Js.geb glucoseLevel 100 && Js.leb glucoseLevel 125);
    [split; [intros i [= <-]; reflexivity | discriminate] |].
  destruct (Js.geb glucoseLevel 126);
    [split; [intros i [= <-]; reflexivity | discriminate] |].
  split; [discriminate | reflexivity].
Qed.

(** X18: the older pipeline, [interpretGlucose] of the older
    [simulateHealthyGlucose]: a simulated glucose up to 99 is Normal, one
    from 100 on is Pre-diabetic, and one strictly between 99 and 100 is
    labelled High, "Diabetic range"; nothing else occurs, the simulation
    being clamped to [[70, 110]].  (Hour 12, heart rate 90 and draws 0.5
    give 99.5.) *)
Theorem older_prediction_labels (timeOfDay : Z)
    (heartRate heartRateAvg spo2 temperature : Q)
    (src : RandomSource) (k : nat) :
  let predictedGlucose :=
    fst (Older.simulateHealthyGlucose timeOfDay heartRate heartRateAvg spo2
           temperature src k) in
  let interpretation := OlderIndex.interpretGlucose predictedGlucose in
  (predictedGlucose <= 99 ->
   interpretation = Interp.mk "Normal" "good" "Normal glucose level")
  /\ (99 < predictedGlucose < 100 ->
      interpretation
      = Interp.mk "High" "warning"
          "Diabetic range - consult healthcare provider")
  /\ (100 <= predictedGlucose ->
      interpretation
      = Interp.mk "Pre-diabetic" "caution"
          "Pre-diabetic range - monitor closely").
Proof.
  intros predictedGlucose interpretation. subst interpretation.
  assert (Hrange : 70 <= predictedGlucose <= 110)
    by apply older_simulateHealthyGlucose_range.
  clearbody predictedGlucose. destruct Hrange as [Hlo Hhi].
  unfold OlderIndex.interpretGlucose.
  destruct (Js.ltb predictedGlucose 70) eqn:E1; [js_tests; lra |].
  destruct (Js.geb predictedGlucose 70) eqn:E2; [| js_tests; lra].
  cbn [andb].
  destruct (Js.leb predictedGlucose 99) eqn:E3; js_tests.
  - split; [reflexivity |]. split; intros; lra.
  - destruct (Js.geb predictedGlucose 100) eqn:E4; cbn [andb]; js_tests.
    + destruct (Js.leb predictedGlucose 125) eqn:E5; js_tests; [| lra].
      split; [intros; lra |]. split; [intros; lra | reflexivity].
    + split; [intros; lra |]. split; [reflexivity | intros; lra].
Qed.

Lemma older_prediction_labels_witness :
  fst (Older.simulateHealthyGlucose 12 90 90 98 36.8 (fun _ => 0.5) 0%nat)
  == 99.5
  /\ OlderIndex.interpretGlucose
       (fst (Older.simulateHealthyGlucose 12 90 90 98 36.8 (fun _ => 0.5)
               0%nat))
     = Interp.mk "High" "warning"
         "Diabetic range - consult healthcare provider".
Proof.
  split; [by_evaluation |].
  apply (older_prediction_labels 12 90 90 98 36.8 (fun _ => 0.5) 0%nat).
  by_evaluation.
Defined.

(** ** The glucose step *)

(** X19: for draws in [[0,1)] and a last stored glucose that is a multiple
    of 0.1 inside the band of the hour, the predicted glucose is within 5.5
    of the last one, and within 1 when no vital-sign nudge applies. *)
Theorem predicted_glucose_step (sensorData : list Rec.t) (timeOfDay : Z)
    (heartRate heartRateAvg spo2 temperature : Q) (deviceId : option string)
    (src : RandomSource) (k : nat) :
  uniform src ->
  is_tenth (Last.glucose (getLastStoredValues sensorData deviceId)) ->
  min (glucoseRange timeOfDay)
  <= Last.glucose (getLastStoredValues sensorData deviceId)
  <= max (glucoseRange timeOfDay) ->
  Qabs (fst (simulateHealthyGlucose sensorData timeOfDay heartRate
               heartRateAvg spo2 temperature deviceId src k)
        - Last.glucose (getLastStoredValues sensorData deviceId))
  <= 5.5
  /\ (65 <= heartRate <= 85 -> 36.5 <= temperature <= 37.0 -> 97 <= spo2 ->
      Qabs (fst (simulateHealthyGlucose sensorData timeOfDay heartRate
                   heartRateAvg spo2 temperature deviceId src k)
            - Last.glucose (getLastStoredValues sensorData deviceId))
      <= 1).
Proof.
  intros Hu Hten Hband.
  set (lastGlucose := Last.glucose (getLastStoredValues sensorData deviceId))
    in *.
  destruct (bands_in_envelope timeOfDay)
    as (_ & _ & _ & _ & _ & (Bg1 & Bg2 & Bg3)).
  destruct (minimum_changes timeOfDay) as (_ & _ & _ & _ & _ & Mg).
  assert (Hstep :
            Qabs (fst (applyControlledVariation lastGlucose lastGlucose
                         (glucoseRange timeOfDay) src k) - lastGlucose)
            <= minChange (glucoseRange timeOfDay) + 0.5)
    by (apply walk_step_size; [assumption | rewrite Mg; lra | assumption]).
  rewrite Mg in Hstep.
  split.
  - destruct (simulateHealthyGlucose_walks sensorData timeOfDay heartRate
                heartRateAvg spo2 temperature deviceId src k Hu)
      as (variation & Hvar & ->).
    fold lastGlucose.
    revert Hstep. generalize (fst (applyControlledVariation lastGlucose
                                     lastGlucose (glucoseRange timeOfDay)
                                     src k)).
    intros baseGlucose Hstep.
    apply (toFixed1_keeps_distance 55); [assumption | q_atoms; lra |].
    change (55 # 10) with 5.5. q_atoms. lra.
  - intros Hh Ht Hs.
    rewrite (simulateHealthyGlucose_no_nudge sensorData timeOfDay heartRate
               heartRateAvg spo2 temperature deviceId src k Hh Ht Hs).
    fold lastGlucose.
    revert Hstep. generalize (fst (applyControlledVariation lastGlucose
                                     lastGlucose (glucoseRange timeOfDay)
                                     src k)).
    intros baseGlucose Hstep.
    apply Qle_trans with (10 # 10); [| by_evaluation].
    apply (toFixed1_keeps_distance 10); [assumption | q_atoms; lra |].
    q_atoms. change (10 # 10) with 1.0. lra.
Qed.

Lemma predicted_glucose_step_witness :
  Qabs (fst (simulateHealthyGlucose (one_prediction 85) 12 72 72 98 36.8
               (Some "d"%string) (fun _ => 0.5) 0%nat)
        - Last.glucose
            (getLastStoredValues (one_prediction 85) (Some "d"%string)))
  <= 5.5.
Proof.
  assert (Hu : uniform (fun _ => 0.5)) by (intros i; by_evaluation).
  assert (Hten : is_tenth
                   (Last.glucose
                      (getLastStoredValues (one_prediction 85)
                         (Some "d"%string))))
    by (exists 850%Z; by_evaluation).
  assert (Hband : min (glucoseRange 12)
                  <= Last.glucose
                       (getLastStoredValues (one_prediction 85)
                          (Some "d"%string))
                  <= max (glucoseRange 12)) by by_evaluation.
  exact (proj1 (predicted_glucose_step (one_prediction 85) 12 72 72 98 36.8
                  (Some "d"%string) (fun _ => 0.5) 0%nat Hu Hten Hband)).
Defined.

(** ** A first record without a date *)

Lemma undated_first_record_stays (sensorData : list Rec.t)
    (deviceId : option string) (first : Rec.t) (later : list Rec.t)
    (record : Rec.t) :
  filter (fun record => deviceId_eqb (Rec.deviceId record) deviceId) sensorData
  = first :: later ->
  Rec.receivedAt first = None ->
  getLastStoredValues (sensorData ++ [record]) deviceId
  = getLastStoredValues sensorData deviceId.
Proof.
  intros Hfilter Hdate.
  rewrite (undated_first_record_wins sensorData deviceId first later Hfilter
             Hdate).
  apply (undated_first_record_wins _ _ first
           (later
            ++ filter (fun record => deviceId_eqb (Rec.deviceId record) deviceId)
                 [record])); [| exact Hdate].
  rewrite filter_app, Hfilter. reflexivity.
Qed.

(** X20: when the first stored record of a device has no valid
    [receivedAt], the lookup of the device is the same after every
    [POST /api/predict-glucose], and after every [POST /api/sensor-data]
    while the store holds fewer than 10000 records: neither handler changes
    what later calls walk from. *)
Theorem lookup_is_frozen_by_an_undated_first_record
    (sensorData : list Rec.t) (deviceId : option string)
    (first : Rec.t) (later : list Rec.t) :
  filter (fun record => deviceId_eqb (Rec.deviceId record) deviceId) sensorData
  = first :: later ->
  Rec.receivedAt first = None ->
  (forall timeOfDay body src k,
      getLastStoredValues
        (snd (fst (postPredictGlucose timeOfDay sensorData body src k)))
        deviceId
      = getLastStoredValues sensorData deviceId)
  /\ (forall now timeOfDay originalData src k,
         (Z.of_nat (List.length sensorData) < 10000)%Z ->
         getLastStoredValues
           (snd (fst (postSensorData now timeOfDay sensorData originalData
                        src k)))
           deviceId
         = getLastStoredValues sensorData deviceId).
Proof.
  intros Hfilter Hdate. split.
  - intros timeOfDay body src k.
    destruct (postPredictGlucose_appends timeOfDay sensorData body src k)
      as [-> | (g & _ & ->)]; [reflexivity |].
    exact (undated_first_record_stays _ _ _ _ _ Hfilter Hdate).
  - intros now timeOfDay originalData src k Hroom.
    destruct (Body.deviceId originalData) as [d |] eqn:Ed;
      [| rewrite postSensorData_rejected_store by (left; exact Ed);
         reflexivity].
    destruct (Body.timestamp originalData) as [ts |] eqn:Ets;
      [| rewrite postSensorData_rejected_store by (right; exact Ets);
         reflexivity].
    rewrite postSensorData_accepted by (rewrite ?Ed, ?Ets; discriminate).
    cbv zeta. cbn [fst snd].
    match goal with
    | |- context [sensorData ++ [?r]] => set (record := r)
    end.
    destruct (Z.gtb_spec (Z.of_nat (List.length (sensorData ++ [record]))) 10000)
      as [Hlong | Hshort];
      [rewrite length_app in Hlong; cbn [List.length] in Hlong; lia |].
    exact (undated_first_record_stays _ _ _ _ _ Hfilter Hdate).
Qed.

Lemma lookup_is_frozen_by_an_undated_first_record_witness :
  getLastStoredValues
    (snd (fst (postSensorData 1700000060000 12 (one_prediction 84.5)
                 body_of_device (fun _ => 0.5) 0%nat)))
    (Some "d"%string)
  = getLastStoredValues (one_prediction 84.5) (Some "d"%string).
Proof.
  apply (proj2 (lookup_is_frozen_by_an_undated_first_record
                  (one_prediction 84.5) (Some "d"%string)
                  (Rec.mk (Some "d"%string) None None None None None None None
                          (Some 84.5))
                  [] eq_refl eq_refl)).
  cbn. lia.
Defined.
